(** * SweetPad build tree view: [src/build/tree.ts]

    A shallow embedding of [BuildTreeItem] and [BuildTreeProvider] and the
    properties of the build-scheme tree that follow from the code.

    Conventions of the embedding.
    - A JavaScript string is a Rocq [string] holding its UTF-8 bytes; string
      equality [===] is [String.eqb], a template literal is concatenation.
    - An optional value ([string | undefined], an optional property of a
      [vscode.TreeItem]) is an [option].
    - An [async] method is a computation in the monad [M]: it threads the
      [World] (the provider object, the clock read by [Date.now()], the
      manager events that are still to be delivered, and the trace of calls
      into the host and the manager) and settles as [Resolved] or [Rejected];
      it is [Pending] when the polling loop was not given ticks enough.
*)

From Stdlib Require Import ZArith String Ascii List Bool Lia Sorted.
From stdpp Require Import base gmap strings list fin_maps.

Local Open Scope string_scope.
Local Open Scope list_scope.
Local Open Scope Z_scope.

(* ===================================================================== *)
(** ** Data model *)
(* ===================================================================== *)

(** Modelled from the spec: [XcodeScheme] is declared in
    [../common/cli/scripts], which is not part of the sources at hand; the
    spec gives it as [{ name: string }]. *)
Record XcodeScheme : Type := { name : string }.

(** [vscode.TreeItemCollapsibleState] *)
Inductive TreeItemCollapsibleState : Type :=
| CollapsibleNone
| Collapsed
| Expanded.

(** [new vscode.ThemeColor(id)] and [new vscode.ThemeIcon(id, color)] *)
Record ThemeColor : Type := { color_id : string }.
Record ThemeIcon : Type := { icon_id : string; icon_color : ThemeColor }.

(** The fields of a [BuildTreeItem] that the constructor writes. [label] and
    [collapsibleState] are set by [super(options.scheme,
    options.collapsibleState)]; [description] stays [undefined] ([None])
    unless the constructor assigns it. The back reference [provider] (always
    [this] of the one provider) is never read in this file and is left out. *)
Record BuildTreeItem : Type := {
  label : string;
  collapsibleState : TreeItemCollapsibleState;
  scheme : string;
  iconPath : ThemeIcon;
  description : option string;
  contextValue : string
}.

(** The [options] argument of the [BuildTreeItem] constructor. *)
Record ItemOptions : Type := {
  opt_scheme : string;
  isDefaultBuild : bool;
  isDefaultTesting : bool;
  isSchemeRunning : bool;
  opt_collapsibleState : TreeItemCollapsibleState
}.

(** JavaScript truthiness of a string: only the empty string is falsy. *)
Definition truthy (s : string) : bool :=
  match s with
  | EmptyString => false
  | String _ _ => true
  end.

(** Lines 27-36: the description is built up from the empty string. *)
Definition build_description (options : ItemOptions) : option string :=
  let description := "" in
  let description :=
    if isDefaultBuild options then description +:+ " ✓" else description in
  let description :=
    if isDefaultTesting options then description +:+ " (t)" else description in
  if truthy description then Some description else None.

(** Lines 41-43. *)
Definition build_contextValue (options : ItemOptions) : string :=
  let status := if isSchemeRunning options then "running" else "idle" in
  let contextPrefix := "build" in
  contextPrefix +:+ "&status=" +:+ status.

(** [new BuildTreeItem(options)], lines 13-44. *)
Definition new_BuildTreeItem (options : ItemOptions) : BuildTreeItem :=
  {| label := opt_scheme options;
     collapsibleState := opt_collapsibleState options;
     scheme := opt_scheme options;
     iconPath := {| icon_id := "sweetpad-package";
                    icon_color := {| color_id := "sweetpad.scheme" |} |};
     description := build_description options;
     contextValue := build_contextValue options |}.

(** [type EventData = BuildTreeItem | undefined | null | undefined] *)
Inductive EventData : Type :=
| EvItem (item : BuildTreeItem)
| EvUndefined
| EvNull.

(** A value thrown or a rejection reason. *)
Record JsError : Type := { message : string }.

(** Modelled from the spec: [BuildManager] is declared in [./manager], which
    is not part of the sources at hand. Section 6 of the spec gives the
    interface the provider consumes: an asynchronous [getSchemes] that may
    fail, two synchronous getters for the default scheme names (a name or
    absent) and a synchronous running check. A value of this record holds
    the answers the manager gives to the queries of one call. *)
Record BuildManager : Type := {
  mgr_getSchemes : JsError + list XcodeScheme;
  mgr_getDefaultSchemeForBuild : option string;
  mgr_getDefaultSchemeForTesting : option string;
  mgr_isSchemeRunning : string -> bool
}.

(** The five manager events the provider subscribes to (lines 58-76). The
    two default-scheme events carry the scheme, which the listeners ignore. *)
Inductive ManagerEvent : Type :=
| refreshSchemesStarted
| refreshSchemesCompleted
| refreshSchemesFailed
| defaultSchemeForBuildUpdated (scheme : option string)
| defaultSchemeForTestingUpdated (scheme : option string).

(** The provider object: the fields of [BuildTreeProvider] that the methods
    read or write. *)
Record BuildTreeProvider : Type := {
  buildManager : BuildManager;
  isLoading : bool
}.

(* ===================================================================== *)
(** ** The world an [async] method runs in *)
(* ===================================================================== *)

(** Calls that leave the provider: into the host ([fire], [executeCommand],
    the timer functions), the logger and the manager. *)
Inductive Effect : Type :=
| Fire (data : EventData)
| ExecuteCommand (command key : string) (value : bool)
| LogError (msg : string) (error : JsError)
| CallGetSchemes
| CallGetDefaultSchemeForBuild
| CallGetDefaultSchemeForTesting
| CallIsSchemeRunning (scheme : string)
| SetInterval (delay : Z)
| ClearInterval.

(** [this] is the provider object; [clock] is what [Date.now()] returns (in
    milliseconds); [queue] holds the manager events that have not been
    delivered yet, in delivery order, each with its time: the first
    millisecond whose timer callbacks run after the listener of the event
    (an event whose listener runs in millisecond [t] has the time [t] when
    the listener runs before a timer callback of that millisecond, and
    [t + 1] when it runs after it); [trace] lists the effects so far,
    oldest first. *)
Record World : Type := {
  this : BuildTreeProvider;
  clock : Z;
  queue : list (Z * ManagerEvent);
  trace : list Effect
}.

Definition set_this (p : BuildTreeProvider) (w : World) : World :=
  {| this := p; clock := clock w; queue := queue w; trace := trace w |}.
Definition set_clock (t : Z) (w : World) : World :=
  {| this := this w; clock := t; queue := queue w; trace := trace w |}.
Definition set_queue (q : list (Z * ManagerEvent)) (w : World) : World :=
  {| this := this w; clock := clock w; queue := q; trace := trace w |}.
Definition set_trace (tr : list Effect) (w : World) : World :=
  {| this := this w; clock := clock w; queue := queue w; trace := tr |}.

(** How a promise stands when the model stops looking: settled one way or
    the other, or still [Pending] (the polling loop was given too few
    timer ticks to settle). *)
Inductive Outcome (A : Type) : Type :=
| Resolved (a : A)
| Rejected (e : JsError)
| Pending.
Arguments Resolved {A} a.
Arguments Rejected {A} e.
Arguments Pending {A}.

Definition M (A : Type) : Type := World -> Outcome A * World.

Definition ret {A} (a : A) : M A := fun w => (Resolved a, w).

Definition bind {A B} (m : M A) (k : A -> M B) : M B :=
  fun w =>
    match m w with
    | (Resolved a, w') => k a w'
    | (Rejected e, w') => (Rejected e, w')
    | (Pending, w') => (Pending, w')
    end.

Notation "'do' x <- c1 ; c2" := (bind c1 (fun x => c2))
  (at level 60, x name, c1 at next level, right associativity).
Notation "'do' '_' <- c1 ; c2" := (bind c1 (fun _ => c2))
  (at level 60, c1 at next level, right associativity).

(** [try { body } catch (error) { handler error }] *)
Definition try_catch {A} (body : M A) (handler : JsError -> M A) : M A :=
  fun w =>
    match body w with
    | (Rejected e, w') => handler e w'
    | r => r
    end.

Definition emit (e : Effect) : M unit :=
  fun w => (Resolved tt, set_trace (trace w ++ [e]) w).

(** Reading and writing [this.isLoading]. *)
Definition get_isLoading : M bool :=
  fun w => (Resolved (isLoading (this w)), w).

Definition set_isLoading (b : bool) : M unit :=
  fun w => (Resolved tt,
            set_this {| buildManager := buildManager (this w); isLoading := b |} w).

(** [Date.now()] *)
Definition Date_now : M Z := fun w => (Resolved (clock w), w).

Fixpoint mapM {A B} (f : A -> M B) (l : list A) : M (list B) :=
  match l with
  | [] => ret []
  | x :: xs => do y <- f x; do ys <- mapM f xs; ret (y :: ys)
  end.

(** *** Calls into the manager *)

(** [await this.buildManager.getSchemes()]: the awaited promise resolves
    with the schemes or rejects, and a rejection is thrown at the [await].
    The fetch is taken to settle at once: no time passes and no queued
    event is delivered while the method is suspended on it. *)
Definition buildManager_getSchemes : M (list XcodeScheme) :=
  fun w =>
    let w' := set_trace (trace w ++ [CallGetSchemes]) w in
    match mgr_getSchemes (buildManager (this w)) with
    | inl e => (Rejected e, w')
    | inr schemes => (Resolved schemes, w')
    end.

Definition buildManager_getDefaultSchemeForBuild : M (option string) :=
  do _ <- emit CallGetDefaultSchemeForBuild;
  fun w => (Resolved (mgr_getDefaultSchemeForBuild (buildManager (this w))), w).

Definition buildManager_getDefaultSchemeForTesting : M (option string) :=
  do _ <- emit CallGetDefaultSchemeForTesting;
  fun w => (Resolved (mgr_getDefaultSchemeForTesting (buildManager (this w))), w).

Definition buildManager_isSchemeRunning (scheme : string) : M bool :=
  do _ <- emit (CallIsSchemeRunning scheme);
  fun w => (Resolved (mgr_isSchemeRunning (buildManager (this w)) scheme), w).

(* ===================================================================== *)
(** ** [BuildTreeProvider] *)
(* ===================================================================== *)

(** Lines 79-83. *)
Definition updateView : M unit := emit (Fire EvNull).

(** The listener the constructor registers for each event (lines 58-76). *)
Definition listener (ev : ManagerEvent) : M unit :=
  match ev with
  | refreshSchemesStarted => do _ <- set_isLoading true; updateView
  | refreshSchemesCompleted => do _ <- set_isLoading false; updateView
  | refreshSchemesFailed => do _ <- set_isLoading false; updateView
  | defaultSchemeForBuildUpdated _ => updateView
  | defaultSchemeForTestingUpdated _ => updateView
  end.

(** [new BuildTreeProvider({ context, buildManager })]: the field
    initialiser of line 52 and the assignments of lines 55-56. The
    [context] is stored and never read. *)
Definition new_BuildTreeProvider (manager : BuildManager) : BuildTreeProvider :=
  {| buildManager := manager; isLoading := false |}.

(** *** The timer

    While a method is suspended other callbacks run. The model of the event
    loop: time passes only while the method is suspended on the interval
    (synchronous code takes no time, and the manager's fetch settles at
    once); an interval of [delay] milliseconds invokes its callback every
    [delay] milliseconds exactly; before a callback runs, the listeners of
    the queued events whose time has come have run, in queue order. The
    code fixes no order between a listener and a timer callback of the same
    millisecond: the time of a queued event says which came first (see
    [World]). *)

Definition is_due (now : Z) (entry : Z * ManagerEvent) : bool := fst entry <=? now.

Definition run_listener (w : World) (entry : Z * ManagerEvent) : World :=
  snd (listener (snd entry) w).

Definition deliver (w : World) : World :=
  let due := List.filter (is_due (clock w)) (queue w) in
  let rest := List.filter (fun entry => negb (is_due (clock w) entry)) (queue w) in
  fold_left run_listener due (set_queue rest w).

(** Suspend until the interval next invokes its callback. *)
Definition next_tick (delay : Z) : M unit :=
  fun w => (Resolved tt, deliver (set_clock (clock w + delay) w)).

(** The callback of lines 97-102, once per tick, until it resolves the
    promise. [fuel] bounds the number of ticks the model looks at. Reading
    the clock has no effect, so it is read before the [||] is evaluated. *)
Fixpoint poll (fuel : nat) (deadline : Z) : M unit :=
  match fuel with
  | O => fun w => (Pending, w)
  | S fuel' =>
      do _ <- next_tick 100;
      do loading <- get_isLoading;
      do now <- Date_now;
      if negb loading || (now >? deadline) then
        do _ <- emit ClearInterval;
        ret tt
      else poll fuel' deadline
  end.

(** Lines 94-104. *)
Definition waitWhileLoading (fuel : nat) : M unit :=
  do loading <- get_isLoading;
  if loading then
    do now <- Date_now;
    let deadline := now + 10 * 1000 in
    do _ <- emit (SetInterval 100);
    poll fuel deadline
  else ret tt.

(** [scheme.name === defaultScheme] where the default may be [undefined]. *)
Definition strict_eq (s : string) (o : option string) : bool :=
  match o with
  | Some s' => String.eqb s s'
  | None => false
  end.

(** Lines 115-149. *)
Definition getSchemes : M (list BuildTreeItem) :=
  let schemes : list XcodeScheme := [] in
  do schemes <-
    try_catch buildManager_getSchemes
      (fun error =>
         do _ <- emit (LogError "Failed to get schemes" error);
         ret schemes);
  do _ <-
    (if (length schemes =? 0)%nat then
       emit (ExecuteCommand "setContext" "sweetpad.build.noSchemes" true)
     else ret tt);
  do defaultSchemeForBuild <- buildManager_getDefaultSchemeForBuild;
  do defaultSchemeForTesting <- buildManager_getDefaultSchemeForTesting;
  mapM (fun scheme =>
          let isDefaultBuild := strict_eq (name scheme) defaultSchemeForBuild in
          let isDefaultTesting := strict_eq (name scheme) defaultSchemeForTesting in
          do isSchemeRunning <- buildManager_isSchemeRunning (name scheme);
          ret (new_BuildTreeItem
                 {| opt_scheme := name scheme;
                    isDefaultBuild := isDefaultBuild;
                    isDefaultTesting := isDefaultTesting;
                    isSchemeRunning := isSchemeRunning;
                    opt_collapsibleState := CollapsibleNone |}))
       schemes.

(** Lines 85-109. *)
Definition getChildren (fuel : nat) (element : option BuildTreeItem)
  : M (list BuildTreeItem) :=
  match element with
  | Some _ => ret []
  | None =>
      do _ <- waitWhileLoading fuel;
      getSchemes
  end.

(** Lines 111-113. *)
Definition getTreeItem (element : BuildTreeItem) : M BuildTreeItem :=
  ret element.

(** The host's context keys, as the [setContext] commands of a trace leave
    them. *)
Definition apply_effect (ctx : gmap string bool) (e : Effect) : gmap string bool :=
  match e with
  | ExecuteCommand command key value =>
      if String.eqb command "setContext" then <[key := value]> ctx else ctx
  | _ => ctx
  end.

Definition context_of (tr : list Effect) : gmap string bool :=
  fold_left apply_effect tr ∅.

(** The payloads of the change signal in a trace. *)
Definition fired (tr : list Effect) : list EventData :=
  omap (fun e => match e with Fire data => Some data | _ => None end) tr.

(* ===================================================================== *)
(** ** Vocabulary of the properties *)
(* ===================================================================== *)

(** The scheme list [getSchemes] goes on with: the fetched one, or the
    initial empty one when the fetch failed. *)
Definition fetched (m : BuildManager) : list XcodeScheme :=
  match mgr_getSchemes m with
  | inl _ => []
  | inr schemes => schemes
  end.

(** The node [getSchemes] builds for one scheme. *)
Definition node_of (m : BuildManager) (s : XcodeScheme) : BuildTreeItem :=
  new_BuildTreeItem
    {| opt_scheme := name s;
       isDefaultBuild := strict_eq (name s) (mgr_getDefaultSchemeForBuild m);
       isDefaultTesting := strict_eq (name s) (mgr_getDefaultSchemeForTesting m);
       isSchemeRunning := mgr_isSchemeRunning m (name s);
       opt_collapsibleState := CollapsibleNone |}.

(** The effects of one [getSchemes] call, in order. *)
Definition getSchemes_effects (m : BuildManager) : list Effect :=
  [CallGetSchemes]
  ++ match mgr_getSchemes m with
     | inl error => [LogError "Failed to get schemes" error]
     | inr _ => []
     end
  ++ (if (length (fetched m) =? 0)%nat
      then [ExecuteCommand "setContext" "sweetpad.build.noSchemes" true]
      else [])
  ++ [CallGetDefaultSchemeForBuild; CallGetDefaultSchemeForTesting]
  ++ map (fun s => CallIsSchemeRunning (name s)) (fetched m).

(** What a listener does to the loading flag. *)
Definition flag_after (loading : bool) (ev : ManagerEvent) : bool :=
  match ev with
  | refreshSchemesStarted => true
  | refreshSchemesCompleted | refreshSchemesFailed => false
  | defaultSchemeForBuildUpdated _ | defaultSchemeForTestingUpdated _ => loading
  end.

Definition clears_loading (ev : ManagerEvent) : bool :=
  match ev with
  | refreshSchemesCompleted | refreshSchemesFailed => true
  | _ => false
  end.

Definition raises_loading (ev : ManagerEvent) : bool :=
  match ev with
  | refreshSchemesStarted => true
  | _ => false
  end.

(** [contains needle hay]: [needle] occurs in [hay]. *)
Fixpoint contains (needle hay : string) : bool :=
  String.prefix needle hay
  || match hay with
     | EmptyString => false
     | String _ rest => contains needle rest
     end.

(** A node shows the build-default badge when its description holds the
    check mark, and the testing-default badge when it holds "(t)". *)
Definition has_build_badge (item : BuildTreeItem) : bool :=
  match description item with
  | Some d => contains "✓" d
  | None => false
  end.

Definition has_testing_badge (item : BuildTreeItem) : bool :=
  match description item with
  | Some d => contains "(t)" d
  | None => false
  end.

(** Effects that write a context key of the host. *)
Definition is_command (e : Effect) : bool :=
  match e with
  | ExecuteCommand _ _ _ => true
  | _ => false
  end.

(** The only command an operation runs is the one that sets
    "sweetpad.build.noSchemes" to true. *)
Definition sets_noSchemes_or_no_command (e : Effect) : Prop :=
  is_command e = true ->
  e = ExecuteCommand "setContext" "sweetpad.build.noSchemes" true.

(** What a wait can have done to the world: the manager is the same one,
    the loading flag went through the listeners of some of the queued
    events, and the trace grew by change signals and timer calls only. *)
Definition waited (w w' : World) : Prop :=
  buildManager (this w') = buildManager (this w)
  /\ clock w <= clock w'
  /\ queue w' ⊆ queue w
  /\ (exists evs : list ManagerEvent,
        evs ⊆ map snd (queue w)
        /\ isLoading (this w') = fold_left flag_after evs (isLoading (this w)))
  /\ (exists tr : list Effect,
        trace w' = trace w ++ tr
        /\ Forall (fun e => e = Fire EvNull \/ e = SetInterval 100 \/ e = ClearInterval) tr).

(** Everything that can run on the provider: a listener, or a method the
    host calls. *)
Inductive Operation : Type :=
| OpListener (ev : ManagerEvent)
| OpUpdateView
| OpGetChildren (fuel : nat) (element : option BuildTreeItem)
| OpGetTreeItem (element : BuildTreeItem)
| OpGetSchemes.

Definition run_op (op : Operation) (w : World) : World :=
  match op with
  | OpListener ev => snd (listener ev w)
  | OpUpdateView => snd (updateView w)
  | OpGetChildren fuel element => snd (getChildren fuel element w)
  | OpGetTreeItem element => snd (getTreeItem element w)
  | OpGetSchemes => snd (getSchemes w)
  end.

(** Between two operations the manager may change what it answers. *)
Definition with_manager (m : BuildManager) (w : World) : World :=
  set_this {| buildManager := m; isLoading := isLoading (this w) |} w.

Definition step (w : World) (x : BuildManager * Operation) : World :=
  run_op (snd x) (with_manager (fst x) w).

Definition run_session (session : list (BuildManager * Operation)) (w : World)
  : World :=
  fold_left step session w.

(** Effects that query the manager, and effects on the timer. *)
Definition is_manager_call (e : Effect) : bool :=
  match e with
  | CallGetSchemes | CallGetDefaultSchemeForBuild
  | CallGetDefaultSchemeForTesting | CallIsSchemeRunning _ => true
  | _ => false
  end.

Definition is_timer_call (e : Effect) : bool :=
  match e with
  | SetInterval _ | ClearInterval => true
  | _ => false
  end.

Definition is_log (e : Effect) : bool :=
  match e with
  | LogError _ _ => true
  | _ => false
  end.

(** The manager emits the events [evs] one after the other: the listeners
    run in that order. *)
Definition dispatch (evs : list ManagerEvent) (w : World) : World :=
  fold_left (fun w ev => snd (listener ev w)) evs w.


(** The queue lists the events by time. *)
Definition by_time (a b : Z * ManagerEvent) : Prop := fst a <= fst b.

(** The value a refresh event gives the loading flag; the other events
    give it none. *)
Definition refresh_flag (ev : ManagerEvent) : option bool :=
  match ev with
  | refreshSchemesStarted => Some true
  | refreshSchemesCompleted | refreshSchemesFailed => Some false
  | defaultSchemeForBuildUpdated _ | defaultSchemeForTestingUpdated _ => None
  end.

(** A node whose context value says the scheme is running. *)
Definition shows_running (item : BuildTreeItem) : bool :=
  String.eqb (contextValue item) "build&status=running".

(* ===================================================================== *)
(** ** Scenarios *)
(* ===================================================================== *)

(** Section 8 of the spec: schemes "App" and "AppTests", the first the
    build default and running, the second the testing default. *)
Definition app_manager : BuildManager :=
  {| mgr_getSchemes := inr [ {| name := "App" |}; {| name := "AppTests" |} ];
     mgr_getDefaultSchemeForBuild := Some "App";
     mgr_getDefaultSchemeForTesting := Some "AppTests";
     mgr_isSchemeRunning := fun s => String.eqb s "App" |}.

(** A manager whose fetch fails, and one that has no scheme. *)
Definition failing_manager : BuildManager :=
  {| mgr_getSchemes := inl {| message := "xcodebuild failed" |};
     mgr_getDefaultSchemeForBuild := None;
     mgr_getDefaultSchemeForTesting := None;
     mgr_isSchemeRunning := fun _ => false |}.

Definition empty_manager : BuildManager :=
  {| mgr_getSchemes := inr [];
     mgr_getDefaultSchemeForBuild := None;
     mgr_getDefaultSchemeForTesting := None;
     mgr_isSchemeRunning := fun _ => false |}.

(** A world at time 0 with nothing queued and nothing done yet. *)
Definition idle_world (m : BuildManager) : World :=
  {| this := new_BuildTreeProvider m; clock := 0; queue := []; trace := [] |}.

(** A refresh is under way when the request comes in, with the events
    [events] to come. *)
Definition refreshing_world (m : BuildManager) (events : list (Z * ManagerEvent))
  : World :=
  {| this := {| buildManager := m; isLoading := true |};
     clock := 0; queue := events; trace := [] |}.

(* ===================================================================== *)
(** ** Tree items *)
(* ===================================================================== *)

Lemma build_description_cases (options : ItemOptions) :
  build_description options =
    match isDefaultBuild options, isDefaultTesting options with
    | true, true => Some " ✓ (t)"
    | true, false => Some " ✓"
    | false, true => Some " (t)"
    | false, false => None
    end.
Proof.
  unfold build_description.
  destruct (isDefaultBuild options), (isDefaultTesting options); reflexivity.
Qed.

Lemma strict_eq_spec (s : string) (o : option string) :
  strict_eq s o = true <-> o = Some s.
Proof.
  destruct o as [s'|]; simpl.
  - rewrite String.eqb_eq. split; [intros ->; reflexivity | intros [= ->]; reflexivity].
  - split; discriminate.
Qed.

(** C7. The context value of a node is the kind "build" and a status that
    follows [isSchemeRunning] one to one: "build&status=running" when the
    scheme is running, "build&status=idle" when it is not, so that two nodes
    carry the same tag exactly when they agree on [isSchemeRunning]. *)
Theorem contextValue_status :
  forall options : ItemOptions,
    contextValue (new_BuildTreeItem options) =
      "build" +:+ "&status=" +:+ (if isSchemeRunning options then "running" else "idle")
    /\ contextValue (new_BuildTreeItem options) =
         (if isSchemeRunning options
          then "build&status=running" else "build&status=idle")
    /\ forall options' : ItemOptions,
         contextValue (new_BuildTreeItem options) =
           contextValue (new_BuildTreeItem options')
         <-> isSchemeRunning options = isSchemeRunning options'.
Proof.
  intros options. simpl. unfold build_contextValue.
  split; [reflexivity|]. split.
  - destruct (isSchemeRunning options); reflexivity.
  - intros options'. simpl. unfold build_contextValue.
    destruct (isSchemeRunning options), (isSchemeRunning options');
      simpl; split; intros H; try reflexivity; discriminate H.
Qed.

(** C10. When at least one badge applies the description is exactly " ✓"
    (build default only), " (t)" (testing default only) or " ✓ (t)" (both):
    the build marker comes first and the description begins with a space. *)
Theorem description_markers :
  forall options : ItemOptions,
    isDefaultBuild options || isDefaultTesting options = true ->
    description (new_BuildTreeItem options) =
      match isDefaultBuild options, isDefaultTesting options with
      | true, false => Some " ✓"
      | false, true => Some " (t)"
      | true, true => Some " ✓ (t)"
      | false, false => None
      end
    /\ exists rest : string,
         description (new_BuildTreeItem options) = Some (String " " rest).
Proof.
  intros options H. simpl. rewrite build_description_cases.
  destruct (isDefaultBuild options), (isDefaultTesting options);
    try discriminate H; (split; [reflexivity | eexists; reflexivity]).
Qed.

Lemma description_markers_witness :
  description
    (new_BuildTreeItem
       {| opt_scheme := "App"; isDefaultBuild := true; isDefaultTesting := true;
          isSchemeRunning := false; opt_collapsibleState := CollapsibleNone |})
  = Some " ✓ (t)".
Proof.
  exact (proj1 (description_markers
                  {| opt_scheme := "App"; isDefaultBuild := true;
                     isDefaultTesting := true; isSchemeRunning := false;
                     opt_collapsibleState := CollapsibleNone |} eq_refl)).
Defined.

(* ===================================================================== *)
(** ** Methods that do not wait *)
(* ===================================================================== *)

(** C8. [getTreeItem] resolves with the node it was given and leaves the
    world, the provider included, as it was. *)
Theorem getTreeItem_identity :
  forall (element : BuildTreeItem) (w : World),
    getTreeItem element w = (Resolved element, w).
Proof. reflexivity. Qed.

(** C5. With a node given, [getChildren] resolves with the empty list in
    the world it started in: no rejection, no timer and no tick whatever
    the loading flag is, no call to the manager, no effect at all. *)
Theorem getChildren_of_node :
  forall (fuel : nat) (element : BuildTreeItem) (w : World),
    getChildren fuel (Some element) w = (Resolved [], w).
Proof. reflexivity. Qed.

(* ===================================================================== *)
(** ** [getSchemes] *)
(* ===================================================================== *)

Lemma set_trace_id (w : World) : set_trace (trace w) w = w.
Proof. destruct w; reflexivity. Qed.

(** The loop of lines 135-148 asks the manager about each scheme in turn
    and builds the nodes in the order of the schemes. *)
Lemma map_schemes_run (b t : option string) (schemes : list XcodeScheme) (w : World) :
  mapM (fun scheme =>
          do isSchemeRunning <- buildManager_isSchemeRunning (name scheme);
          ret (new_BuildTreeItem
                 {| opt_scheme := name scheme;
                    isDefaultBuild := strict_eq (name scheme) b;
                    isDefaultTesting := strict_eq (name scheme) t;
                    isSchemeRunning := isSchemeRunning;
                    opt_collapsibleState := CollapsibleNone |}))
       schemes w
  = (Resolved
       (map (fun s =>
               new_BuildTreeItem
                 {| opt_scheme := name s;
                    isDefaultBuild := strict_eq (name s) b;
                    isDefaultTesting := strict_eq (name s) t;
                    isSchemeRunning := mgr_isSchemeRunning (buildManager (this w)) (name s);
                    opt_collapsibleState := CollapsibleNone |})
            schemes),
     set_trace (trace w ++ map (fun s => CallIsSchemeRunning (name s)) schemes) w).
Proof.
  revert w. induction schemes as [|s schemes IH]; intros w.
  - simpl. unfold ret. rewrite app_nil_r, set_trace_id. reflexivity.
  - cbn [mapM map]. unfold bind at 1.
    unfold buildManager_isSchemeRunning at 1. unfold bind at 1.
    unfold emit at 1. cbn [ret]. unfold bind at 1. unfold ret at 1.
    unfold bind at 1. rewrite IH. unfold ret. cbn [set_trace trace this].
    rewrite <- app_assoc. reflexivity.
Qed.

(** [getSchemes] always resolves: with the nodes of the schemes it goes on
    with, after the effects of [getSchemes_effects], and nothing else of
    the world changes. *)
Lemma getSchemes_run (w : World) :
  getSchemes w =
    (Resolved (map (node_of (buildManager (this w))) (fetched (buildManager (this w)))),
     set_trace (trace w ++ getSchemes_effects (buildManager (this w))) w).
Proof.
  unfold getSchemes, getSchemes_effects, fetched, node_of.
  unfold bind at 1. unfold try_catch, buildManager_getSchemes.
  destruct (mgr_getSchemes (buildManager (this w))) as [error|schemes] eqn:Hfetch.
  - unfold bind at 1. unfold emit at 1. unfold ret at 1.
    cbn [length Nat.eqb]. unfold bind at 1. unfold emit at 1.
    unfold bind at 1. unfold buildManager_getDefaultSchemeForBuild.
    unfold bind at 1. unfold emit at 1.
    unfold bind at 1. unfold buildManager_getDefaultSchemeForTesting.
    unfold bind at 1. unfold emit at 1.
    cbn [mapM ret set_trace trace this map app].
    rewrite <- !app_assoc. reflexivity.
  - unfold bind at 1.
    destruct (length schemes =? 0)%nat eqn:Hlen.
    + unfold emit at 1.
      unfold bind at 1. unfold buildManager_getDefaultSchemeForBuild.
      unfold bind at 1. unfold emit at 1.
      unfold bind at 1. unfold buildManager_getDefaultSchemeForTesting.
      unfold bind at 1. unfold emit at 1.
      rewrite map_schemes_run. cbn [set_trace trace this].
      rewrite <- !app_assoc. reflexivity.
    + unfold ret at 1.
      unfold bind at 1. unfold buildManager_getDefaultSchemeForBuild.
      unfold bind at 1. unfold emit at 1.
      unfold bind at 1. unfold buildManager_getDefaultSchemeForTesting.
      unfold bind at 1. unfold emit at 1.
      rewrite map_schemes_run. cbn [set_trace trace this].
      rewrite <- !app_assoc. reflexivity.
Qed.

Lemma getSchemes_effects_fired (m : BuildManager) :
  fired (getSchemes_effects m) = [].
Proof.
  unfold getSchemes_effects, fired. rewrite !omap_app.
  assert (omap (fun e => match e with Fire data => Some data | _ => None end)
            (map (fun s => CallIsSchemeRunning (name s)) (fetched m)) = []) as ->.
  { induction (fetched m) as [|s l IH]; [reflexivity | exact IH]. }
  destruct (mgr_getSchemes m); destruct (length (fetched m) =? 0)%nat; reflexivity.
Qed.

(* ===================================================================== *)
(** ** Listeners and the timer *)
(* ===================================================================== *)

Lemma listener_run (ev : ManagerEvent) (w : World) :
  listener ev w =
    (Resolved tt,
     {| this := {| buildManager := buildManager (this w);
                   isLoading := flag_after (isLoading (this w)) ev |};
        clock := clock w;
        queue := queue w;
        trace := trace w ++ [Fire EvNull] |}).
Proof.
  destruct w as [[m l] c q tr]. destruct ev; reflexivity.
Qed.

Lemma run_listeners (evs : list (Z * ManagerEvent)) (w : World) :
  fold_left run_listener evs w =
    {| this := {| buildManager := buildManager (this w);
                  isLoading := fold_left flag_after (map snd evs) (isLoading (this w)) |};
       clock := clock w;
       queue := queue w;
       trace := trace w ++ replicate (length evs) (Fire EvNull) |}.
Proof.
  revert w. induction evs as [|[t ev] evs IH]; intros w.
  - simpl. rewrite app_nil_r. destruct w as [[m l] c q tr]. reflexivity.
  - cbn [fold_left map length replicate]. rewrite IH.
    unfold run_listener. rewrite listener_run. cbn.
    rewrite <- app_assoc. reflexivity.
Qed.

Lemma dispatch_run (evs : list ManagerEvent) (w : World) :
  dispatch evs w =
    {| this := {| buildManager := buildManager (this w);
                  isLoading := fold_left flag_after evs (isLoading (this w)) |};
       clock := clock w;
       queue := queue w;
       trace := trace w ++ replicate (length evs) (Fire EvNull) |}.
Proof.
  unfold dispatch. revert w. induction evs as [|ev evs IH]; intros w.
  - cbn. rewrite app_nil_r. destruct w as [[m l] c q tr]. reflexivity.
  - cbn [fold_left length replicate]. rewrite IH, listener_run. cbn.
    rewrite <- app_assoc. reflexivity.
Qed.

Lemma deliver_run (w : World) :
  deliver w =
    {| this := {| buildManager := buildManager (this w);
                  isLoading :=
                    fold_left flag_after
                      (map snd (List.filter (is_due (clock w)) (queue w)))
                      (isLoading (this w)) |};
       clock := clock w;
       queue := List.filter (fun entry => negb (is_due (clock w) entry)) (queue w);
       trace := trace w
                ++ replicate (length (List.filter (is_due (clock w)) (queue w)))
                     (Fire EvNull) |}.
Proof. unfold deliver. rewrite run_listeners. reflexivity. Qed.

(** One iteration of the polling loop, unfolded. *)
Lemma poll_step (fuel : nat) (deadline : Z) (w : World) :
  poll (S fuel) deadline w =
    let w1 := deliver (set_clock (clock w + 100) w) in
    if negb (isLoading (this w1)) || (clock w1 >? deadline)
    then (Resolved tt, set_trace (trace w1 ++ [ClearInterval]) w1)
    else poll fuel deadline w1.
Proof.
  cbn [poll]. unfold bind at 1. unfold next_tick.
  unfold bind at 1. unfold get_isLoading.
  unfold bind at 1. unfold Date_now.
  cbv zeta.
  destruct (negb (isLoading (this (deliver (set_clock (clock w + 100) w))))
            || (clock (deliver (set_clock (clock w + 100) w)) >? deadline));
    reflexivity.
Qed.

Lemma clock_deliver (w : World) : clock (deliver w) = clock w.
Proof. rewrite deliver_run. reflexivity. Qed.

Lemma waited_refl (w : World) : waited w w.
Proof.
  repeat split; try reflexivity.
  - exists []. split; [apply list_subseteq_nil | reflexivity].
  - exists []. rewrite app_nil_r. split; [reflexivity | constructor].
Qed.

Lemma waited_trans (w1 w2 w3 : World) :
  waited w1 w2 -> waited w2 w3 -> waited w1 w3.
Proof.
  intros (Hm1 & Hc1 & Hq1 & (evs1 & Hs1 & Hl1) & (tr1 & Ht1 & Hf1))
         (Hm2 & Hc2 & Hq2 & (evs2 & Hs2 & Hl2) & (tr2 & Ht2 & Hf2)).
  repeat split.
  - congruence.
  - lia.
  - etransitivity; eassumption.
  - exists (evs1 ++ evs2). split.
    + apply list_subseteq_app_iff_l. split; [assumption|].
      etransitivity; [exact Hs2|]. intros ev Hev.
      apply list_elem_of_fmap in Hev as (entry & -> & Hentry).
      apply list_elem_of_fmap. exists entry. split; [reflexivity|]. apply Hq1, Hentry.
    + rewrite fold_left_app, <- Hl1. exact Hl2.
  - exists (tr1 ++ tr2). split.
    + rewrite Ht2, Ht1, <- app_assoc. reflexivity.
    + apply Forall_app. split; assumption.
Qed.

Lemma waited_emit (e : Effect) (w : World) :
  e = Fire EvNull \/ e = SetInterval 100 \/ e = ClearInterval ->
  waited w (set_trace (trace w ++ [e]) w).
Proof.
  intros He. repeat split; try reflexivity.
  - exists []. split; [apply list_subseteq_nil | reflexivity].
  - exists [e]. split; [reflexivity | constructor; [exact He | constructor]].
Qed.

Lemma filter_subseteq {A} (f : A -> bool) (l : list A) : List.filter f l ⊆ l.
Proof.
  intros x Hx. apply list_elem_of_In in Hx. apply List.filter_In in Hx as [Hx _].
  apply list_elem_of_In, Hx.
Qed.

Lemma waited_tick (w : World) :
  waited w (deliver (set_clock (clock w + 100) w)).
Proof.
  rewrite deliver_run. cbn [set_clock this clock queue trace].
  repeat split; cbn [this clock queue trace buildManager isLoading].
  - lia.
  - apply filter_subseteq.
  - eexists. split; [|reflexivity].
    intros ev Hev. apply list_elem_of_fmap in Hev as (entry & -> & Hentry).
    apply list_elem_of_fmap. exists entry. split; [reflexivity|].
    eapply filter_subseteq, Hentry.
  - eexists. split; [reflexivity|].
    apply Forall_forall. intros e He. apply elem_of_replicate in He as [-> _].
    left. reflexivity.
Qed.

Lemma poll_waited (fuel : nat) (deadline : Z) (w : World) :
  waited w (snd (poll fuel deadline w)).
Proof.
  revert w. induction fuel as [|fuel IH]; intros w.
  - apply waited_refl.
  - rewrite poll_step. cbv zeta.
    destruct (negb _ || _).
    + cbn [snd]. eapply waited_trans; [apply waited_tick|].
      apply waited_emit. auto.
    + eapply waited_trans; [apply waited_tick | apply IH].
Qed.

Lemma waitWhileLoading_run (fuel : nat) (w : World) :
  waitWhileLoading fuel w =
    if isLoading (this w)
    then poll fuel (clock w + 10 * 1000) (set_trace (trace w ++ [SetInterval 100]) w)
    else (Resolved tt, w).
Proof.
  unfold waitWhileLoading. unfold bind at 1. unfold get_isLoading.
  destruct (isLoading (this w)); [|reflexivity].
  unfold bind at 1. unfold Date_now. unfold bind at 1. unfold emit.
  reflexivity.
Qed.

Lemma waitWhileLoading_waited (fuel : nat) (w : World) :
  waited w (snd (waitWhileLoading fuel w)).
Proof.
  rewrite waitWhileLoading_run. destruct (isLoading (this w)).
  - eapply waited_trans; [|apply poll_waited]. apply waited_emit. auto.
  - apply waited_refl.
Qed.

(** The loop settles once a tick falls after the deadline: within [n + 1]
    ticks when the deadline is less than [100 * (n + 1)] ms away. *)
Lemma poll_settles (n : nat) :
  forall (fuel : nat) (deadline : Z) (w : World),
    deadline < clock w + 100 * (Z.of_nat n + 1) ->
    (n < fuel)%nat ->
    exists w' : World,
      poll fuel deadline w = (Resolved tt, w')
      /\ clock w + 100 <= clock w' <= clock w + 100 * (Z.of_nat n + 1).
Proof.
  induction n as [|n IH]; intros fuel deadline w Hd Hfuel.
  - destruct fuel as [|fuel]; [lia|]. rewrite poll_step. cbv zeta.
    pose proof (clock_deliver (set_clock (clock w + 100) w)) as Hc.
    cbn [set_clock clock] in Hc.
    assert ((clock (deliver (set_clock (clock w + 100) w)) >? deadline) = true) as ->.
    { apply Z.gtb_lt. lia. }
    rewrite orb_true_r. eexists. split; [reflexivity|].
    cbn [set_trace clock]. lia.
  - destruct fuel as [|fuel]; [lia|]. rewrite poll_step. cbv zeta.
    pose proof (clock_deliver (set_clock (clock w + 100) w)) as Hc.
    cbn [set_clock clock] in Hc.
    destruct (negb _ || _).
    + eexists. split; [reflexivity|]. cbn [set_trace clock]. lia.
    + destruct (IH fuel deadline (deliver (set_clock (clock w + 100) w)))
        as (w' & Hrun & Hclock); [lia | lia |].
      exists w'. split; [exact Hrun | lia].
Qed.

(** With 101 ticks to look at, the wait of a root request is over, at most
    10100 ms after it began. *)
Lemma waitWhileLoading_settles (fuel : nat) (w : World) :
  (101 <= fuel)%nat ->
  exists w' : World,
    waitWhileLoading fuel w = (Resolved tt, w')
    /\ clock w <= clock w' <= clock w + 10100
    /\ waited w w'.
Proof.
  intros Hfuel.
  pose proof (waitWhileLoading_waited fuel w) as Hw.
  rewrite waitWhileLoading_run in *. destruct (isLoading (this w)).
  - destruct (poll_settles 100 fuel (clock w + 10 * 1000)
                (set_trace (trace w ++ [SetInterval 100]) w))
      as (w' & Hrun & Hclock); [cbn; lia | lia |].
    rewrite Hrun in *. exists w'. cbn [set_trace clock] in Hclock.
    split; [reflexivity|]. split; [lia | exact Hw].
  - exists w. split; [reflexivity|]. split; [lia | exact Hw].
Qed.

Lemma getChildren_root (fuel : nat) (w w' : World) :
  waitWhileLoading fuel w = (Resolved tt, w') ->
  getChildren fuel None w = getSchemes w'.
Proof.
  intros Hwait. unfold getChildren. unfold bind. rewrite Hwait. reflexivity.
Qed.

(** *** A refresh that completes during the wait *)

Lemma flag_stays_raised (evs : list ManagerEvent) :
  Forall (fun ev => clears_loading ev = false) evs ->
  fold_left flag_after evs true = true.
Proof.
  induction 1 as [|ev evs Hev _ IH]; [reflexivity|].
  destruct ev; try discriminate Hev; exact IH.
Qed.

Lemma flag_stays_cleared (evs : list ManagerEvent) :
  Forall (fun ev => raises_loading ev = false) evs ->
  fold_left flag_after evs false = false.
Proof.
  induction 1 as [|ev evs Hev _ IH]; [reflexivity|].
  destruct ev; try discriminate Hev; exact IH.
Qed.

Lemma Forall_map_filter {A B} (P : B -> Prop) (g : A -> B) (f : A -> bool) (l : list A) :
  (forall x, x ∈ l -> f x = true -> P (g x)) ->
  Forall P (map g (List.filter f l)).
Proof.
  intros H. apply Forall_forall. intros y Hy.
  apply list_elem_of_fmap in Hy as (x & -> & Hx).
  apply list_elem_of_In, List.filter_In in Hx as [Hx Hf].
  apply H; [apply list_elem_of_In, Hx | exact Hf].
Qed.

Lemma filter_none {A} (f : A -> bool) (l : list A) :
  Forall (fun x => f x = false) l -> List.filter f l = [].
Proof.
  induction 1 as [|x l Hx _ IH]; [reflexivity|]. simpl. rewrite Hx. exact IH.
Qed.

Lemma filter_all {A} (f : A -> bool) (l : list A) :
  Forall (fun x => f x = true) l -> List.filter f l = l.
Proof.
  induction 1 as [|x l Hx _ IH]; [reflexivity|]. simpl. rewrite Hx, IH. reflexivity.
Qed.

(** The loading flag is raised; an event that clears it is queued for time
    [D], no event before [D] clears it, and every later event that raises
    it again comes after a tick that is not before [D]: the loop resolves
    at the first tick at or after [D]. *)
Lemma poll_sees_clear (n : nat) :
  forall (fuel : nat) (deadline : Z) (w : World) (D : Z)
         (pre : list (Z * ManagerEvent)) (ev : ManagerEvent)
         (post : list (Z * ManagerEvent)),
    isLoading (this w) = true ->
    queue w = pre ++ (D, ev) :: post ->
    Forall (fun entry => fst entry < D -> clears_loading (snd entry) = false) pre ->
    clears_loading ev = true ->
    Forall (fun entry => D <= fst entry) post ->
    Forall (fun entry => raises_loading (snd entry) = true ->
                         exists k : Z, D <= clock w + 100 * k < fst entry)
           post ->
    clock w < D <= clock w + 100 * Z.of_nat n ->
    D <= deadline ->
    (n <= fuel)%nat ->
    exists w' : World,
      poll fuel deadline w = (Resolved tt, w')
      /\ D <= clock w' < D + 100
      /\ isLoading (this w') = false.
Proof.
  induction n as [|n IH];
    intros fuel deadline w D pre ev post Hload Hq Hpre Hev Hafter Hpost Hclock Hdl Hfuel;
    [lia|].
  destruct fuel as [|fuel]; [lia|]. rewrite poll_step. cbv zeta.
  rewrite deliver_run. cbn [set_clock this clock queue trace isLoading].
  rewrite Hq, Hload, !List.filter_app. cbn [List.filter].
  change (is_due (clock w + 100) (D, ev)) with (D <=? clock w + 100).
  destruct (Z.leb_spec D (clock w + 100)) as [Hdue|Hnot].
  - (* the listener of the clearing event has run when this callback runs *)
    cbn [negb]. rewrite map_app, fold_left_app. cbn [map fold_left snd].
    assert (forall b, flag_after b ev = false) as ->
        by (intros b; destruct ev; try discriminate Hev; reflexivity).
    rewrite flag_stays_cleared.
    2:{ apply Forall_map_filter. intros entry Hin Hd.
        rewrite Forall_forall in Hpost. specialize (Hpost entry Hin).
        destruct (raises_loading (snd entry)); [|reflexivity].
        destruct (Hpost eq_refl) as (k & Hk).
        unfold is_due in Hd. apply Z.leb_le in Hd. lia. }
    cbn [negb orb]. eexists. split; [reflexivity|].
    cbn [set_trace clock this isLoading]. split; [lia | reflexivity].
  - (* the tick comes before the clearing event *)
    cbn [negb].
    assert (List.filter (is_due (clock w + 100)) post = []) as Hnone.
    { apply filter_none. eapply Forall_impl; [exact Hafter|].
      intros entry Hd. cbv beta in Hd. unfold is_due. apply Z.leb_gt. lia. }
    assert (List.filter (fun entry => negb (is_due (clock w + 100) entry)) post = post)
      as Hall.
    { apply filter_all. eapply Forall_impl; [exact Hafter|].
      intros entry Hd. cbv beta in Hd. unfold is_due. apply negb_true_iff, Z.leb_gt. lia. }
    rewrite Hnone, Hall, app_nil_r.
    rewrite flag_stays_raised.
    2:{ apply Forall_map_filter. intros entry Hin Hd.
        rewrite Forall_forall in Hpre. apply (Hpre entry Hin).
        unfold is_due in Hd. apply Z.leb_le in Hd. lia. }
    assert ((clock w + 100 >? deadline) = false) as ->
        by (rewrite Z.gtb_ltb; apply Z.ltb_ge; lia).
    cbn [negb orb].
    eapply (IH fuel deadline _ D _ ev post); cbn [this clock queue isLoading];
      try reflexivity; try assumption; try lia.
    + apply Forall_forall. intros entry Hin.
      apply list_elem_of_In, List.filter_In in Hin as [Hin _].
      rewrite Forall_forall in Hpre. apply Hpre, list_elem_of_In, Hin.
    + eapply Forall_impl; [exact Hpost|].
      intros entry Hraise Hr. destruct (Hraise Hr) as (k & Hk).
      exists (k - 1). lia.
Qed.

(** In a queue listed by time, what comes after an entry is not earlier. *)
Lemma by_time_after (pre : list (Z * ManagerEvent)) (entry : Z * ManagerEvent)
      (post : list (Z * ManagerEvent)) :
  StronglySorted by_time (pre ++ entry :: post) ->
  Forall (fun later => fst entry <= fst later) post.
Proof.
  induction pre as [|first pre IH]; cbn [app]; intros Hsorted;
    apply StronglySorted_inv in Hsorted as [Htail Hfirst].
  - exact Hfirst.
  - apply IH, Htail.
Qed.

(* ===================================================================== *)
(** ** The nodes of [getSchemes] *)
(* ===================================================================== *)

Lemma node_of_badges (m : BuildManager) (s : XcodeScheme) :
  has_build_badge (node_of m s) = strict_eq (name s) (mgr_getDefaultSchemeForBuild m)
  /\ has_testing_badge (node_of m s) = strict_eq (name s) (mgr_getDefaultSchemeForTesting m)
  /\ (description (node_of m s) = None <->
      has_build_badge (node_of m s) = false /\ has_testing_badge (node_of m s) = false)
  /\ description (node_of m s) <> Some "".
Proof.
  unfold has_build_badge, has_testing_badge, node_of. cbn [description new_BuildTreeItem].
  rewrite build_description_cases. cbn [isDefaultBuild isDefaultTesting].
  destruct (strict_eq (name s) (mgr_getDefaultSchemeForBuild m)),
           (strict_eq (name s) (mgr_getDefaultSchemeForTesting m));
    (split; [reflexivity|]); (split; [reflexivity|]);
    (split; [split; [try discriminate; intros _; split; reflexivity
                    | intros [H1 H2]; try discriminate H1; try discriminate H2;
                      reflexivity]
            | discriminate]).
Qed.

(** C1. In the node list of [getSchemes], built from the schemes in order,
    a node carries the build-default badge exactly when its scheme name is
    the build default, and the testing-default badge exactly when its
    scheme name is the testing default (no node when the default is
    absent); a node named by both defaults carries both; a node with
    neither badge has no description at all, and no node has an empty
    description. *)
Theorem default_badges :
  forall w : World,
    let b := mgr_getDefaultSchemeForBuild (buildManager (this w)) in
    let t := mgr_getDefaultSchemeForTesting (buildManager (this w)) in
    exists (nodes : list BuildTreeItem) (w' : World),
      getSchemes w = (Resolved nodes, w')
      /\ map scheme nodes = map name (fetched (buildManager (this w)))
      /\ forall node : BuildTreeItem,
           node ∈ nodes ->
           (has_build_badge node = true <-> b = Some (scheme node))
           /\ (has_testing_badge node = true <-> t = Some (scheme node))
           /\ (b = t -> b = Some (scheme node) ->
               has_build_badge node = true /\ has_testing_badge node = true)
           /\ (description node = None <->
               b <> Some (scheme node) /\ t <> Some (scheme node))
           /\ description node <> Some "".
Proof.
  intros w b t. rewrite getSchemes_run. eexists _, _. split; [reflexivity|].
  split.
  - rewrite map_map. reflexivity.
  - intros node Hnode.
    apply list_elem_of_fmap in Hnode as (s & -> & _).
    destruct (node_of_badges (buildManager (this w)) s) as (Hb & Ht & Hnone & Hne).
    fold b in Hb. fold t in Hb, Ht.
    assert (scheme (node_of (buildManager (this w)) s) = name s) as Hname by reflexivity.
    rewrite Hname, Hb, Ht in *.
    pose proof (strict_eq_spec (name s) b) as Sb.
    pose proof (strict_eq_spec (name s) t) as St.
    split; [exact Sb|]. split; [exact St|]. split; [|split; [|exact Hne]].
    + intros Hbt Hdef. split; [apply Sb, Hdef | apply St; congruence].
    + rewrite Hnone. split.
      * intros [Hnb Hnt]. split; intros Hdef.
        -- apply Sb in Hdef. congruence.
        -- apply St in Hdef. congruence.
      * intros [Hnb Hnt]. split.
        -- destruct (strict_eq (name s) b); [|reflexivity].
           exfalso. apply Hnb, Sb. reflexivity.
        -- destruct (strict_eq (name s) t); [|reflexivity].
           exfalso. apply Hnt, St. reflexivity.
Qed.

(** C6. For a fetched scheme list, [getSchemes] resolves with as many
    nodes as there are schemes; the i-th node has the name of the i-th
    scheme as its label and as its scheme, and is a leaf. *)
Theorem nodes_follow_schemes :
  forall (w : World) (schemes : list XcodeScheme),
    mgr_getSchemes (buildManager (this w)) = inr schemes ->
    exists (nodes : list BuildTreeItem) (w' : World),
      getSchemes w = (Resolved nodes, w')
      /\ length nodes = length schemes
      /\ map label nodes = map name schemes
      /\ forall (i : nat) (s : XcodeScheme),
           schemes !! i = Some s ->
           exists node : BuildTreeItem,
             nodes !! i = Some node
             /\ label node = name s
             /\ scheme node = name s
             /\ collapsibleState node = CollapsibleNone.
Proof.
  intros w schemes Hfetch. rewrite getSchemes_run. unfold fetched. rewrite Hfetch.
  eexists _, _. split; [reflexivity|]. split; [apply length_map|].
  split; [rewrite map_map; reflexivity|].
  intros i s Hi. exists (node_of (buildManager (this w)) s).
  split; [|repeat split].
  change (map ?f ?l) with (f <$> l). rewrite list_lookup_fmap, Hi. reflexivity.
Qed.

Lemma default_badges_witness :
  exists (nodes : list BuildTreeItem) (w' : World),
    getSchemes (idle_world app_manager) = (Resolved nodes, w')
    /\ map scheme nodes = ["App"; "AppTests"]
    /\ map has_build_badge nodes = [true; false]
    /\ map has_testing_badge nodes = [false; true].
Proof.
  destruct (default_badges (idle_world app_manager)) as (nodes & w' & Hrun & Hnames & _).
  exists nodes, w'. split; [exact Hrun|]. split; [exact Hnames|].
  rewrite getSchemes_run in Hrun. injection Hrun as <- _.
  split; reflexivity.
Defined.

Lemma nodes_follow_schemes_witness :
  exists (nodes : list BuildTreeItem) (w' : World),
    getSchemes (idle_world app_manager) = (Resolved nodes, w')
    /\ length nodes = 2%nat
    /\ map label nodes = ["App"; "AppTests"]
    /\ forall (i : nat) (s : XcodeScheme),
         [ {| name := "App" |}; {| name := "AppTests" |} ] !! i = Some s ->
         exists node : BuildTreeItem,
           nodes !! i = Some node
           /\ label node = name s
           /\ scheme node = name s
           /\ collapsibleState node = CollapsibleNone.
Proof.
  exact (nodes_follow_schemes (idle_world app_manager)
           [ {| name := "App" |}; {| name := "AppTests" |} ] eq_refl).
Defined.

(* ===================================================================== *)
(** ** The empty state *)
(* ===================================================================== *)

Lemma context_of_app (tr tr' : list Effect) :
  context_of (tr ++ tr') = fold_left apply_effect tr' (context_of tr).
Proof. unfold context_of. apply fold_left_app. Qed.

(** A root request with 101 ticks to look at runs [getSchemes] in the world
    the wait leaves. *)
Lemma getChildren_root_run (fuel : nat) (w : World) :
  (101 <= fuel)%nat ->
  exists w1 : World,
    waited w w1
    /\ clock w <= clock w1 <= clock w + 10100
    /\ getChildren fuel None w =
         (Resolved (map (node_of (buildManager (this w))) (fetched (buildManager (this w)))),
          set_trace (trace w1 ++ getSchemes_effects (buildManager (this w))) w1).
Proof.
  intros Hfuel.
  destruct (waitWhileLoading_settles fuel w Hfuel) as (w1 & Hwait & Hclock & Hw).
  exists w1. split; [exact Hw|]. split; [exact Hclock|].
  rewrite (getChildren_root _ _ _ Hwait), getSchemes_run.
  destruct Hw as (-> & _). reflexivity.
Qed.

(** C3. A root request whose scheme fetch fails resolves, with the empty
    list: the error is logged, nothing is rejected, and the host's context
    key "sweetpad.build.noSchemes" is set to true. The key is set to true
    in the same way when the fetch succeeds with no scheme. *)
Theorem fetch_failure_degrades :
  forall (fuel : nat) (w : World),
    (101 <= fuel)%nat ->
    (forall error : JsError,
        mgr_getSchemes (buildManager (this w)) = inl error ->
        exists (w' : World) (tr : list Effect),
          getChildren fuel None w = (Resolved [], w')
          /\ trace w' = trace w ++ tr
          /\ LogError "Failed to get schemes" error ∈ tr
          /\ ExecuteCommand "setContext" "sweetpad.build.noSchemes" true ∈ tr
          /\ context_of (trace w') !! "sweetpad.build.noSchemes" = Some true)
    /\ (mgr_getSchemes (buildManager (this w)) = inr [] ->
        exists (w' : World) (tr : list Effect),
          getChildren fuel None w = (Resolved [], w')
          /\ trace w' = trace w ++ tr
          /\ ExecuteCommand "setContext" "sweetpad.build.noSchemes" true ∈ tr
          /\ context_of (trace w') !! "sweetpad.build.noSchemes" = Some true).
Proof.
  intros fuel w Hfuel.
  destruct (getChildren_root_run fuel w Hfuel)
    as (w1 & (_ & _ & _ & _ & (tr1 & Htr1 & _)) & _ & Hrun).
  unfold getSchemes_effects, fetched in Hrun.
  split; [intros error Hfetch | intros Hfetch]; rewrite Hfetch in Hrun;
    cbn [map length Nat.eqb app] in Hrun; rewrite Hrun; eexists _, _;
    (split; [reflexivity|]); cbn [set_trace trace]; rewrite Htr1, <- app_assoc;
    (split; [reflexivity|]).
  - split; [set_solver|]. split; [set_solver|].
    rewrite app_assoc, context_of_app. cbn [fold_left apply_effect].
    rewrite String.eqb_refl. apply lookup_insert_eq.
  - split; [set_solver|].
    rewrite app_assoc, context_of_app. cbn [fold_left apply_effect].
    rewrite String.eqb_refl. apply lookup_insert_eq.
Qed.

Lemma fetch_failure_degrades_witness :
  exists (w' : World) (tr : list Effect),
    getChildren 101 None (refreshing_world failing_manager []) = (Resolved [], w')
    /\ trace w' = trace (refreshing_world failing_manager []) ++ tr
    /\ LogError "Failed to get schemes" {| message := "xcodebuild failed" |} ∈ tr
    /\ ExecuteCommand "setContext" "sweetpad.build.noSchemes" true ∈ tr
    /\ context_of (trace w') !! "sweetpad.build.noSchemes" = Some true.
Proof.
  exact (proj1 (fetch_failure_degrades 101 (refreshing_world failing_manager [])
                  (le_n 101))
           {| message := "xcodebuild failed" |} eq_refl).
Defined.

Lemma getSchemes_effects_commands (m : BuildManager) :
  Forall sets_noSchemes_or_no_command (getSchemes_effects m)
  /\ (fetched m <> [] -> Forall (fun e => is_command e = false) (getSchemes_effects m)).
Proof.
  unfold getSchemes_effects. split.
  - repeat (apply Forall_app; split).
    + repeat constructor; discriminate.
    + destruct (mgr_getSchemes m); repeat constructor; discriminate.
    + destruct (length (fetched m) =? 0)%nat; repeat constructor.
    + repeat constructor; discriminate.
    + apply Forall_forall. intros e He.
      apply list_elem_of_fmap in He as (s & -> & _). discriminate.
  - intros Hne. repeat (apply Forall_app; split).
    + repeat constructor.
    + destruct (mgr_getSchemes m); repeat constructor.
    + destruct (fetched m) as [|s l]; [congruence|]. constructor.
    + repeat constructor.
    + apply Forall_forall. intros e He.
      apply list_elem_of_fmap in He as (s & -> & _). reflexivity.
Qed.

Lemma waited_commands (w w' : World) :
  waited w w' ->
  exists tr : list Effect,
    trace w' = trace w ++ tr /\ Forall (fun e => is_command e = false) tr.
Proof.
  intros (_ & _ & _ & _ & (tr & Htr & Hall)). exists tr. split; [exact Htr|].
  eapply Forall_impl; [exact Hall|].
  intros e [-> | [-> | ->]]; reflexivity.
Qed.

(** The world [getChildren] leaves: the one after the wait, with the
    effects of [getSchemes] when the wait was over in the ticks looked at. *)
Lemma getChildren_world (fuel : nat) (w : World) :
  exists w1 : World,
    waited w w1
    /\ (snd (getChildren fuel None w) = w1
        \/ snd (getChildren fuel None w) =
             set_trace (trace w1 ++ getSchemes_effects (buildManager (this w))) w1).
Proof.
  pose proof (waitWhileLoading_waited fuel w) as Hw.
  unfold getChildren, bind.
  destruct (waitWhileLoading fuel w) as [[[]| |] w1]; cbn [snd] in *;
    exists w1; (split; [exact Hw|]); [right | left; reflexivity | left; reflexivity].
  rewrite getSchemes_run. destruct Hw as (-> & _). reflexivity.
Qed.

Lemma run_op_commands (op : Operation) (w : World) :
  exists tr : list Effect,
    trace (run_op op w) = trace w ++ tr
    /\ Forall sets_noSchemes_or_no_command tr.
Proof.
  destruct op as [ev| |fuel [element|]|element|]; cbn [run_op].
  - rewrite listener_run. eexists. split; [reflexivity|].
    repeat constructor. discriminate.
  - eexists. split; [reflexivity|]. repeat constructor. discriminate.
  - exists []. rewrite app_nil_r. split; [reflexivity | constructor].
  - destruct (getChildren_world fuel w) as (w1 & Hw & [-> | ->]);
      apply waited_commands in Hw as (tr1 & Htr1 & Hall).
    + exists tr1. split; [exact Htr1|].
      eapply Forall_impl; [exact Hall|]. intros e He Hc. congruence.
    + eexists. cbn [set_trace trace]. rewrite Htr1, <- app_assoc.
      split; [reflexivity|]. apply Forall_app. split.
      * eapply Forall_impl; [exact Hall|]. intros e He Hc. congruence.
      * apply getSchemes_effects_commands.
  - exists []. rewrite app_nil_r. split; [reflexivity | constructor].
  - rewrite getSchemes_run. eexists. split; [reflexivity|].
    apply getSchemes_effects_commands.
Qed.

Lemma noSchemes_stays (tr : list Effect) (ctx : gmap string bool) :
  Forall sets_noSchemes_or_no_command tr ->
  ctx !! "sweetpad.build.noSchemes" = Some true ->
  fold_left apply_effect tr ctx !! "sweetpad.build.noSchemes" = Some true.
Proof.
  intros Hall. revert ctx. induction Hall as [|e tr He _ IH]; intros ctx Hctx.
  - exact Hctx.
  - cbn [fold_left]. apply IH.
    destruct e; try exact Hctx.
    rewrite (He eq_refl). cbn [apply_effect]. rewrite String.eqb_refl.
    apply lookup_insert_eq.
Qed.

(** C9. Whatever runs on the provider, a context key is written only as
    "sweetpad.build.noSchemes" := true. [getSchemes] writes it only when
    the list it resolves with is empty and writes no key when that list is
    not empty. So the key, once true, is true after every later operation,
    whatever the manager answers by then. *)
Theorem noSchemes_only_set :
  (forall (op : Operation) (w : World),
      exists tr : list Effect,
        trace (run_op op w) = trace w ++ tr
        /\ forall (command key : string) (value : bool),
             ExecuteCommand command key value ∈ tr ->
             command = "setContext" /\ key = "sweetpad.build.noSchemes" /\ value = true)
  /\ (forall w : World,
        exists (nodes : list BuildTreeItem) (w' : World) (tr : list Effect),
          getSchemes w = (Resolved nodes, w')
          /\ trace w' = trace w ++ tr
          /\ (forall e : Effect, e ∈ tr -> is_command e = true -> nodes = [])
          /\ (nodes <> [] -> Forall (fun e => is_command e = false) tr)
          /\ (nodes <> [] -> context_of (trace w') = context_of (trace w)))
  /\ (forall (session : list (BuildManager * Operation)) (w : World),
        context_of (trace w) !! "sweetpad.build.noSchemes" = Some true ->
        context_of (trace (run_session session w)) !! "sweetpad.build.noSchemes"
          = Some true).
Proof.
  split; [|split].
  - intros op w. destruct (run_op_commands op w) as (tr & Htr & Hall).
    exists tr. split; [exact Htr|]. intros command key value Hin.
    rewrite Forall_forall in Hall. specialize (Hall _ Hin eq_refl).
    injection Hall as -> -> ->. repeat split.
  - intros w. rewrite getSchemes_run. eexists _, _, _.
    split; [reflexivity|]. split; [reflexivity|].
    destruct (getSchemes_effects_commands (buildManager (this w))) as [_ Hnone].
    assert (map (node_of (buildManager (this w))) (fetched (buildManager (this w))) <> []
            -> fetched (buildManager (this w)) <> []) as Hfetched.
    { intros Hne Hf. apply Hne. rewrite Hf. reflexivity. }
    split; [|split].
    + intros e He Hc.
      destruct (fetched (buildManager (this w))) as [|s l] eqn:Hf; [reflexivity|].
      exfalso. assert (s :: l <> []) as Hne by discriminate.
      specialize (Hnone Hne). rewrite Forall_forall in Hnone.
      rewrite (Hnone e He) in Hc. discriminate Hc.
    + intros Hne. apply Hnone, Hfetched, Hne.
    + intros Hne. cbn [set_trace trace]. rewrite context_of_app.
      specialize (Hnone (Hfetched Hne)). revert Hnone.
      generalize (getSchemes_effects (buildManager (this w))) (context_of (trace w)).
      intros tr. induction tr as [|e tr IH]; intros ctx Hall; [reflexivity|].
      inversion Hall as [|? ? He Htl]; subst. cbn [fold_left].
      rewrite <- (IH ctx Htl) at 2. destruct e; try discriminate He; reflexivity.
  - intros session. induction session as [|[m op] session IH]; intros w Hctx.
    + exact Hctx.
    + cbn [run_session fold_left]. apply IH. unfold step. cbn [fst snd].
      destruct (run_op_commands op (with_manager m w)) as (tr & Htr & Hall).
      rewrite Htr. cbn [with_manager set_this trace]. rewrite context_of_app.
      apply noSchemes_stays; assumption.
Qed.

Lemma noSchemes_only_set_witness :
  context_of
    (trace (run_session [(app_manager, OpGetChildren 0 None)]
              (run_op OpGetSchemes (idle_world empty_manager))))
    !! "sweetpad.build.noSchemes" = Some true.
Proof.
  apply (proj2 (proj2 noSchemes_only_set)). vm_compute. reflexivity.
Defined.

(* ===================================================================== *)
(** ** The loading flag *)
(* ===================================================================== *)











(* ===================================================================== *)
(** ** How long a root request waits *)
(* ===================================================================== *)

(** Against C2 as stated, on two counts.

    The wait never ends later than 10 s after it began: a refresh that
    never completes. The callback invoked 10000 ms after the wait began
    reads a clock equal to the deadline, not past it, so the promise is
    still pending then; the wait is over at the next tick, 10100 ms after
    it began, which is later than 10 s.

    The wait ends no later than 100 ms after the flag became false: the
    refresh completes 50 ms into the wait and the next one starts 10 ms
    later. The flag is false from 50 ms on, and raised again at the tick of
    100 ms; no later event clears it, and the wait goes on until 10100 ms,
    which is later than 150 ms. *)
Lemma wait_outlasts_ten_seconds :
  (fst (waitWhileLoading 100 (refreshing_world app_manager [])) = Pending
   /\ clock (snd (waitWhileLoading 100 (refreshing_world app_manager [])))
      = clock (refreshing_world app_manager []) + 10 * 1000
   /\ exists w' : World,
        waitWhileLoading 101 (refreshing_world app_manager []) = (Resolved tt, w')
        /\ getChildren 101 None (refreshing_world app_manager []) = getSchemes w'
        /\ clock w' = clock (refreshing_world app_manager []) + 10100
        /\ ~ clock w' <= clock (refreshing_world app_manager []) + 10 * 1000)
  /\ (let w := refreshing_world app_manager
                 [(50, refreshSchemesCompleted); (60, refreshSchemesStarted)] in
      StronglySorted by_time (queue w)
      /\ isLoading (this w) = true
      /\ isLoading (this (deliver (set_clock (clock w + 49) w))) = true
      /\ isLoading (this (deliver (set_clock (clock w + 50) w))) = false
      /\ exists w' : World,
           waitWhileLoading 101 w = (Resolved tt, w')
           /\ getChildren 101 None w = getSchemes w'
           /\ clock w' = clock w + 10100
           /\ ~ clock w' <= clock w + 50 + 100).
Proof.
  assert (forall w : World,
             (fst (waitWhileLoading 101 w), clock (snd (waitWhileLoading 101 w)))
             = (Resolved tt, clock w + 10100) ->
             exists w' : World,
               waitWhileLoading 101 w = (Resolved tt, w')
               /\ getChildren 101 None w = getSchemes w'
               /\ clock w' = clock w + 10100) as Hend.
  { intros w Hrun. destruct (waitWhileLoading 101 w) as [o w'] eqn:Hwait.
    cbn [fst snd] in Hrun. injection Hrun as -> Hclock.
    exists w'. split; [reflexivity|].
    split; [apply getChildren_root; exact Hwait | exact Hclock]. }
  split; [|cbv zeta].
  - split; [vm_compute; reflexivity|]. split; [vm_compute; reflexivity|].
    destruct (Hend (refreshing_world app_manager [])) as (w' & Hwait & Hroot & Hclock);
      [vm_compute; reflexivity|].
    exists w'. split; [exact Hwait|]. split; [exact Hroot|].
    split; [exact Hclock|]. rewrite Hclock. cbn. lia.
  - split.
    { repeat first [apply SSorted_nil | apply SSorted_cons | apply Forall_nil
                   | apply Forall_cons; split]; try exact I; unfold by_time; cbn; lia. }
    split; [reflexivity|]. split; [vm_compute; reflexivity|].
    split; [vm_compute; reflexivity|].
    destruct (Hend (refreshing_world app_manager
                      [(50, refreshSchemesCompleted); (60, refreshSchemesStarted)]))
      as (w' & Hwait & Hroot & Hclock); [vm_compute; reflexivity|].
    exists w'. split; [exact Hwait|]. split; [exact Hroot|].
    split; [exact Hclock|]. rewrite Hclock. cbn. lia.
Qed.

(** C2. A root request made while the loading flag is false goes to the
    scheme fetch in the world it started in: no timer, no tick. One made
    while the flag is true, when the flag becomes false [delta] ms later
    ([0 < delta < 10000]) and is not raised again before the next poll,
    ends its wait no earlier than [delta] and no later than [delta + 100]
    ms after it began. In every case the wait is over at most 10 s and one
    polling period of 100 ms after it began.

    The flag becomes false [delta] ms into the wait: the queue, listed by
    time, holds an event [ev] that clears the flag, whose listener runs in
    that millisecond (its time [seen] is [delta], or [delta + 1] when a
    timer callback of that millisecond runs first), and no event before
    that time clears the flag. It is not raised again before the next
    poll: every event listed after [ev] that raises the flag comes after a
    tick that is not before the time of [ev]. *)
Theorem wait_bounds :
  (forall (fuel : nat) (w : World),
      isLoading (this w) = false ->
      waitWhileLoading fuel w = (Resolved tt, w)
      /\ getChildren fuel None w = getSchemes w)
  /\ (forall (fuel : nat) (w : World) (delta seen : Z)
             (pre : list (Z * ManagerEvent)) (ev : ManagerEvent)
             (post : list (Z * ManagerEvent)),
        (101 <= fuel)%nat ->
        isLoading (this w) = true ->
        0 < delta < 10 * 1000 ->
        delta <= seen <= delta + 1 ->
        StronglySorted by_time (queue w) ->
        queue w = pre ++ (clock w + seen, ev) :: post ->
        Forall (fun entry =>
                  fst entry < clock w + seen -> clears_loading (snd entry) = false)
               pre ->
        clears_loading ev = true ->
        Forall (fun entry =>
                  raises_loading (snd entry) = true ->
                  exists k : Z, clock w + seen <= clock w + 100 * k < fst entry)
               post ->
        exists w' : World,
          waitWhileLoading fuel w = (Resolved tt, w')
          /\ getChildren fuel None w = getSchemes w'
          /\ clock w + delta <= clock w' <= clock w + delta + 100
          /\ isLoading (this w') = false)
  /\ (forall (fuel : nat) (w : World),
        (101 <= fuel)%nat ->
        exists w' : World,
          waitWhileLoading fuel w = (Resolved tt, w')
          /\ getChildren fuel None w = getSchemes w'
          /\ clock w <= clock w' <= clock w + 10 * 1000 + 100).
Proof.
  split; [|split].
  - intros fuel w Hidle.
    assert (waitWhileLoading fuel w = (Resolved tt, w)) as Hwait
        by (rewrite waitWhileLoading_run, Hidle; reflexivity).
    split; [exact Hwait | apply getChildren_root, Hwait].
  - intros fuel w delta seen pre ev post Hfuel Hload Hdelta Hseen Hsorted Hq Hpre Hev Hpost.
    rewrite Hq in Hsorted. apply by_time_after in Hsorted. cbn [fst] in Hsorted.
    destruct (poll_sees_clear 100 fuel (clock w + 10 * 1000)
                (set_trace (trace w ++ [SetInterval 100]) w)
                (clock w + seen) pre ev post)
      as (w' & Hrun & Hclock & Hflag);
      cbn [set_trace this clock queue]; try assumption; try lia.
    assert (waitWhileLoading fuel w = (Resolved tt, w')) as Hwait
        by (rewrite waitWhileLoading_run, Hload; exact Hrun).
    exists w'. split; [exact Hwait|].
    split; [apply getChildren_root, Hwait|]. split; [lia | exact Hflag].
  - intros fuel w Hfuel.
    destruct (waitWhileLoading_settles fuel w Hfuel) as (w' & Hwait & Hclock & _).
    exists w'. split; [exact Hwait|].
    split; [apply getChildren_root, Hwait | lia].
Qed.

Lemma wait_bounds_witness :
  (waitWhileLoading 0 (idle_world app_manager) = (Resolved tt, idle_world app_manager)
   /\ getChildren 0 None (idle_world app_manager) = getSchemes (idle_world app_manager))
  /\ (exists w' : World,
        waitWhileLoading 101
          (refreshing_world app_manager
             [(2950, refreshSchemesCompleted); (3020, refreshSchemesStarted)])
        = (Resolved tt, w')
        /\ getChildren 101 None
             (refreshing_world app_manager
                [(2950, refreshSchemesCompleted); (3020, refreshSchemesStarted)])
           = getSchemes w'
        /\ 0 + 2950 <= clock w' <= 0 + 2950 + 100
        /\ isLoading (this w') = false)
  /\ (exists w' : World,
        waitWhileLoading 101
          (refreshing_world app_manager [(3001, refreshSchemesCompleted)])
        = (Resolved tt, w')
        /\ getChildren 101 None
             (refreshing_world app_manager [(3001, refreshSchemesCompleted)])
           = getSchemes w'
        /\ 0 + 3000 <= clock w' <= 0 + 3000 + 100
        /\ isLoading (this w') = false)
  /\ (exists w' : World,
        waitWhileLoading 101 (refreshing_world app_manager []) = (Resolved tt, w')
        /\ getChildren 101 None (refreshing_world app_manager []) = getSchemes w'
        /\ 0 <= clock w' <= 0 + 10 * 1000 + 100).
Proof.
  destruct wait_bounds as (Hidle & Hclears & Hbound).
  split; [|split; [|split]].
  - apply Hidle. reflexivity.
  - apply (Hclears 101%nat
             (refreshing_world app_manager
                [(2950, refreshSchemesCompleted); (3020, refreshSchemesStarted)])
             2950 2950 [] refreshSchemesCompleted [(3020, refreshSchemesStarted)]).
    + apply le_n.
    + reflexivity.
    + split; reflexivity.
    + split; [apply Z.le_refl | discriminate].
    + apply SSorted_cons.
      * apply SSorted_cons; [apply SSorted_nil | apply Forall_nil; exact I].
      * apply Forall_cons. split; [discriminate | apply Forall_nil; exact I].
    + reflexivity.
    + apply Forall_nil. exact I.
    + reflexivity.
    + apply Forall_cons. split; [|apply Forall_nil; exact I].
      intros _. exists 30. split; [discriminate | reflexivity].
  - apply (Hclears 101%nat
             (refreshing_world app_manager [(3001, refreshSchemesCompleted)])
             3000 3001 [] refreshSchemesCompleted []).
    + apply le_n.
    + reflexivity.
    + split; reflexivity.
    + split; discriminate.
    + apply SSorted_cons; [apply SSorted_nil | apply Forall_nil; exact I].
    + reflexivity.
    + apply Forall_nil. exact I.
    + reflexivity.
    + apply Forall_nil. exact I.
  - apply (Hbound 101%nat (refreshing_world app_manager [])). apply le_n.
Defined.

(* ===================================================================== *)
(** ** More on [getSchemes] *)
(* ===================================================================== *)

Lemma filter_map_calls (schemes : list XcodeScheme) :
  List.filter is_manager_call (map (fun s => CallIsSchemeRunning (name s)) schemes)
  = map (fun s => CallIsSchemeRunning (name s)) schemes.
Proof.
  apply filter_all, Forall_forall. intros e He.
  apply list_elem_of_fmap in He as (s & -> & _). reflexivity.
Qed.

(** X1. [getSchemes] resolves whatever the manager answers, and asks the
    manager in a fixed order: the fetch once, the build default once, the
    testing default once, then the running check once for each scheme it
    goes on with, in the order of the schemes (none after a failed fetch).
    It sets and clears no timer. *)
Theorem getSchemes_queries :
  forall w : World,
    exists (nodes : list BuildTreeItem) (w' : World) (tr : list Effect),
      getSchemes w = (Resolved nodes, w')
      /\ trace w' = trace w ++ tr
      /\ List.filter is_manager_call tr =
           [CallGetSchemes; CallGetDefaultSchemeForBuild; CallGetDefaultSchemeForTesting]
           ++ map (fun s => CallIsSchemeRunning (name s)) (fetched (buildManager (this w)))
      /\ List.filter is_timer_call tr = [].
Proof.
  intros w. rewrite getSchemes_run. eexists _, _, _.
  split; [reflexivity|]. split; [reflexivity|].
  split; unfold getSchemes_effects.
  - rewrite !List.filter_app, filter_map_calls.
    destruct (mgr_getSchemes (buildManager (this w)));
      destruct (length (fetched (buildManager (this w))) =? 0)%nat; reflexivity.
  - rewrite !List.filter_app.
    rewrite (filter_none is_timer_call (map _ _)).
    2:{ apply Forall_forall. intros e He.
        apply list_elem_of_fmap in He as (s & -> & _). reflexivity. }
    destruct (mgr_getSchemes (buildManager (this w)));
      destruct (length (fetched (buildManager (this w))) =? 0)%nat; reflexivity.
Qed.

(** X2. [getSchemes] logs exactly when the fetch failed: one
    "Failed to get schemes" entry carrying the error of the fetch, and no
    log entry at all after a fetch that succeeded. *)
Theorem getSchemes_logs_failure_only :
  forall w : World,
    exists (nodes : list BuildTreeItem) (w' : World) (tr : list Effect),
      getSchemes w = (Resolved nodes, w')
      /\ trace w' = trace w ++ tr
      /\ List.filter is_log tr =
           match mgr_getSchemes (buildManager (this w)) with
           | inl error => [LogError "Failed to get schemes" error]
           | inr _ => []
           end.
Proof.
  intros w. rewrite getSchemes_run. eexists _, _, _.
  split; [reflexivity|]. split; [reflexivity|].
  unfold getSchemes_effects. rewrite !List.filter_app.
  rewrite (filter_none is_log (map _ _)).
  2:{ apply Forall_forall. intros e He.
      apply list_elem_of_fmap in He as (s & -> & _). reflexivity. }
  destruct (mgr_getSchemes (buildManager (this w)));
    destruct (length (fetched (buildManager (this w))) =? 0)%nat; reflexivity.
Qed.

(** X3. The node [getSchemes] builds for the i-th scheme says "running"
    exactly when the manager's running check answers true for that scheme's
    name, and "idle" otherwise; the defaults play no part in it. *)
Theorem nodes_show_running :
  forall (w : World) (i : nat) (s : XcodeScheme),
    fetched (buildManager (this w)) !! i = Some s ->
    exists (nodes : list BuildTreeItem) (w' : World) (node : BuildTreeItem),
      getSchemes w = (Resolved nodes, w')
      /\ nodes !! i = Some node
      /\ shows_running node = mgr_isSchemeRunning (buildManager (this w)) (name s)
      /\ contextValue node =
           (if mgr_isSchemeRunning (buildManager (this w)) (name s)
            then "build&status=running" else "build&status=idle").
Proof.
  intros w i s Hi. rewrite getSchemes_run.
  exists (map (node_of (buildManager (this w))) (fetched (buildManager (this w)))).
  eexists. exists (node_of (buildManager (this w)) s).
  split; [reflexivity|]. split.
  - change (map ?f ?l) with (f <$> l). rewrite list_lookup_fmap, Hi. reflexivity.
  - unfold shows_running, node_of. cbn [contextValue new_BuildTreeItem].
    unfold build_contextValue. cbn [isSchemeRunning].
    destruct (mgr_isSchemeRunning (buildManager (this w)) (name s)); split; reflexivity.
Qed.

Lemma nodes_show_running_witness :
  exists (nodes : list BuildTreeItem) (w' : World) (node : BuildTreeItem),
    getSchemes (idle_world app_manager) = (Resolved nodes, w')
    /\ nodes !! 1%nat = Some node
    /\ shows_running node = false
    /\ contextValue node = "build&status=idle".
Proof.
  exact (nodes_show_running (idle_world app_manager) 1 {| name := "AppTests" |} eq_refl).
Defined.

Lemma filter_map_length {A B} (f : B -> bool) (g : A -> B) (l : list A) :
  length (List.filter f (map g l)) = length (List.filter (fun x => f (g x)) l).
Proof.
  induction l as [|x l IH]; [reflexivity|]. cbn [map List.filter].
  destruct (f (g x)); cbn [length]; rewrite IH; reflexivity.
Qed.

Lemma default_matches_once (d : option string) (schemes : list XcodeScheme) :
  NoDup (map name schemes) ->
  (length (List.filter (fun s => strict_eq (name s) d) schemes) <= 1)%nat.
Proof.
  induction schemes as [|s schemes IH]; intros Hnd; [cbn; lia|].
  cbn [map] in Hnd. apply NoDup_cons in Hnd as [Hnotin Hnd].
  cbn [List.filter]. destruct (strict_eq (name s) d) eqn:Hs; [|apply IH, Hnd].
  rewrite filter_none; [cbn; lia|].
  apply Forall_forall. intros s' Hs'.
  destruct (strict_eq (name s') d) eqn:Hs''; [|reflexivity].
  exfalso. apply Hnotin.
  apply strict_eq_spec in Hs. apply strict_eq_spec in Hs''.
  assert (name s = name s') as -> by congruence.
  apply list_elem_of_fmap. exists s'. split; [reflexivity | exact Hs'].
Qed.

(** X4. As many nodes carry the build-default badge as there are schemes
    named like the build default, and likewise for the testing default:
    schemes that share the default's name are all marked, and when the
    scheme names are pairwise different at most one node carries each
    badge. *)
Theorem badge_counts :
  forall w : World,
    let m := buildManager (this w) in
    exists (nodes : list BuildTreeItem) (w' : World),
      getSchemes w = (Resolved nodes, w')
      /\ length (List.filter has_build_badge nodes) =
           length (List.filter
                     (fun s => strict_eq (name s) (mgr_getDefaultSchemeForBuild m))
                     (fetched m))
      /\ length (List.filter has_testing_badge nodes) =
           length (List.filter
                     (fun s => strict_eq (name s) (mgr_getDefaultSchemeForTesting m))
                     (fetched m))
      /\ (NoDup (map name (fetched m)) ->
          (length (List.filter has_build_badge nodes) <= 1)%nat
          /\ (length (List.filter has_testing_badge nodes) <= 1)%nat).
Proof.
  intros w m. rewrite getSchemes_run. fold m. eexists _, _. split; [reflexivity|].
  assert (forall l,
             length (List.filter has_build_badge (map (node_of m) l)) =
             length (List.filter
                       (fun s => strict_eq (name s) (mgr_getDefaultSchemeForBuild m)) l))
    as Hb.
  { intros l. rewrite filter_map_length. f_equal.
    apply List.filter_ext. intros s. apply node_of_badges. }
  assert (forall l,
             length (List.filter has_testing_badge (map (node_of m) l)) =
             length (List.filter
                       (fun s => strict_eq (name s) (mgr_getDefaultSchemeForTesting m)) l))
    as Ht.
  { intros l. rewrite filter_map_length. f_equal.
    apply List.filter_ext. intros s. apply node_of_badges. }
  split; [apply Hb|]. split; [apply Ht|].
  intros Hnd. rewrite Hb, Ht. split; apply default_matches_once, Hnd.
Qed.

Lemma badge_counts_witness :
  exists (nodes : list BuildTreeItem) (w' : World),
    getSchemes (idle_world app_manager) = (Resolved nodes, w')
    /\ (length (List.filter has_build_badge nodes) <= 1)%nat
    /\ (length (List.filter has_testing_badge nodes) <= 1)%nat.
Proof.
  destruct (badge_counts (idle_world app_manager)) as (nodes & w' & Hrun & _ & _ & Hnd).
  exists nodes, w'. split; [exact Hrun|]. apply Hnd.
  apply NoDup_cons. split.
  - intros Hin. apply list_elem_of_singleton in Hin. discriminate Hin.
  - apply NoDup_singleton.
Defined.

(* ===================================================================== *)
(** ** Sequences of manager events *)
(* ===================================================================== *)

Lemma flag_after_events (evs : list ManagerEvent) (b : bool) :
  fold_left flag_after evs b = default b (last (omap refresh_flag evs)).
Proof.
  induction evs as [|ev evs IH] using rev_ind; [reflexivity|].
  rewrite fold_left_app, omap_app. cbn [fold_left].
  destruct ev; cbn [omap list_omap refresh_flag flag_after];
    rewrite ?last_snoc, ?app_nil_r; try reflexivity; exact IH.
Qed.

(** X5. After the manager has emitted any sequence of events, the loading
    flag is what the last refresh event of the sequence says (true after
    "started", false after "completed" or "failed"), or what it was when
    the sequence has no refresh event; one change signal with [null] was
    fired for each event, and nothing else was done: no manager query, no
    command, no timer, no change of the clock. *)
Theorem events_compose :
  forall (evs : list ManagerEvent) (w : World),
    isLoading (this (dispatch evs w)) =
      default (isLoading (this w)) (last (omap refresh_flag evs))
    /\ trace (dispatch evs w) = trace w ++ replicate (length evs) (Fire EvNull)
    /\ fired (trace (dispatch evs w)) = fired (trace w) ++ replicate (length evs) EvNull
    /\ buildManager (this (dispatch evs w)) = buildManager (this w)
    /\ clock (dispatch evs w) = clock w
    /\ queue (dispatch evs w) = queue w.
Proof.
  intros evs w. rewrite dispatch_run. cbn [this isLoading trace buildManager clock queue].
  split; [apply flag_after_events|]. split; [reflexivity|].
  split; [|repeat split].
  unfold fired. rewrite omap_app. f_equal.
  induction (length evs) as [|n IH]; [reflexivity|]. cbn. rewrite IH. reflexivity.
Qed.

(* ===================================================================== *)
(** ** Context keys *)
(* ===================================================================== *)

Lemma other_keys_stay (key : string) (tr : list Effect) (ctx : gmap string bool) :
  key <> "sweetpad.build.noSchemes" ->
  Forall sets_noSchemes_or_no_command tr ->
  fold_left apply_effect tr ctx !! key = ctx !! key.
Proof.
  intros Hkey Hall. revert ctx. induction Hall as [|e tr He _ IH]; intros ctx.
  - reflexivity.
  - cbn [fold_left]. rewrite IH.
    destruct e; try reflexivity.
    rewrite (He eq_refl). cbn [apply_effect]. rewrite String.eqb_refl.
    apply lookup_insert_ne. congruence.
Qed.

(** X6. No operation of the provider, and no sequence of them with the
    manager changing in between, touches a context key of the host other
    than "sweetpad.build.noSchemes". *)
Theorem other_context_keys_untouched :
  forall (key : string) (session : list (BuildManager * Operation)) (w : World),
    key <> "sweetpad.build.noSchemes" ->
    context_of (trace (run_session session w)) !! key = context_of (trace w) !! key.
Proof.
  intros key session w Hkey. revert w.
  induction session as [|[m op] session IH]; intros w; [reflexivity|].
  cbn [run_session fold_left]. unfold run_session in IH. rewrite IH.
  unfold step. cbn [fst snd].
  destruct (run_op_commands op (with_manager m w)) as (tr & Htr & Hall).
  rewrite Htr. cbn [with_manager set_this trace]. rewrite context_of_app.
  apply other_keys_stay; assumption.
Qed.

Lemma other_context_keys_untouched_witness :
  context_of
    (trace (run_session [(empty_manager, OpGetSchemes); (app_manager, OpGetSchemes)]
              (idle_world empty_manager)))
    !! "sweetpad.build.loading" = None.
Proof.
  rewrite (other_context_keys_untouched "sweetpad.build.loading"
             [(empty_manager, OpGetSchemes); (app_manager, OpGetSchemes)]
             (idle_world empty_manager)).
  - reflexivity.
  - discriminate.
Defined.

(* ===================================================================== *)
(** ** More on the wait of a root request *)
(* ===================================================================== *)

(** A loop that resolved did so at a tick: after [k] periods of 100 ms,
    having seen change signals only, and it cleared the interval last. *)
Lemma poll_resolved (fuel : nat) :
  forall (deadline : Z) (w w' : World),
    poll fuel deadline w = (Resolved tt, w') ->
    exists k n : nat,
      (1 <= k <= fuel)%nat
      /\ clock w' = clock w + 100 * Z.of_nat k
      /\ trace w' = trace w ++ replicate n (Fire EvNull) ++ [ClearInterval]
      /\ buildManager (this w') = buildManager (this w).
Proof.
  induction fuel as [|fuel IH]; intros deadline w w' Hrun; [discriminate Hrun|].
  rewrite poll_step in Hrun. cbv zeta in Hrun.
  pose proof (deliver_run (set_clock (clock w + 100) w)) as Hw1.
  cbn [set_clock this clock queue trace] in Hw1.
  destruct (negb _ || _).
  - injection Hrun as <-. exists 1%nat. eexists.
    split; [lia|]. rewrite Hw1. cbn [set_trace clock trace this buildManager].
    split; [lia|]. rewrite <- app_assoc. split; reflexivity.
  - apply IH in Hrun as (k & n & Hk & Hclock & Htrace & Hm).
    rewrite Hw1 in Hclock, Htrace, Hm. cbn [clock trace this buildManager] in *.
    exists (S k). eexists (_ + n)%nat. split; [lia|]. split; [lia|].
    split; [|exact Hm]. rewrite Htrace, replicate_add, <- !app_assoc. reflexivity.
Qed.

(** The trace of a root request: the timer part when the flag was raised,
    then the effects of [getSchemes]. *)
Lemma getChildren_root_trace (fuel : nat) (w : World) :
  (101 <= fuel)%nat ->
  exists (w' : World) (n : nat),
    getChildren fuel None w =
      (Resolved (map (node_of (buildManager (this w))) (fetched (buildManager (this w)))),
       w')
    /\ trace w' =
         trace w
         ++ (if isLoading (this w)
             then SetInterval 100 :: replicate n (Fire EvNull) ++ [ClearInterval]
             else [])
         ++ getSchemes_effects (buildManager (this w)).
Proof.
  intros Hfuel.
  destruct (waitWhileLoading_settles fuel w Hfuel) as (w1 & Hwait & _ & (Hm & _)).
  rewrite (getChildren_root _ _ _ Hwait), getSchemes_run, Hm.
  rewrite waitWhileLoading_run in Hwait.
  destruct (isLoading (this w)).
  - apply poll_resolved in Hwait as (k & n & _ & _ & Htrace & _).
    cbn [set_trace trace] in Htrace.
    eexists _, n. split; [reflexivity|]. cbn [set_trace trace].
    rewrite Htrace. cbn [app]. rewrite <- !app_assoc. reflexivity.
  - injection Hwait as <-. eexists _, 0%nat. split; reflexivity.
Qed.

Lemma filter_replicate_fire (f : Effect -> bool) (n : nat) :
  f (Fire EvNull) = false -> List.filter f (replicate n (Fire EvNull)) = [].
Proof.
  intros Hf. apply filter_none, Forall_forall.
  intros e He. apply elem_of_replicate in He as [-> _]. exact Hf.
Qed.

Lemma getSchemes_effects_no_timer (m : BuildManager) :
  Forall (fun e => is_timer_call e = false) (getSchemes_effects m).
Proof.
  unfold getSchemes_effects. repeat (apply Forall_app; split).
  - repeat constructor.
  - destruct (mgr_getSchemes m); repeat constructor.
  - destruct (length (fetched m) =? 0)%nat; repeat constructor.
  - repeat constructor.
  - apply Forall_forall. intros e He.
    apply list_elem_of_fmap in He as (s & -> & _). reflexivity.
Qed.

(** X7. A root request that found the loading flag raised sets one
    interval of 100 ms and clears it, once, before it goes on; one that
    found the flag down sets no interval. No interval is left running. *)
Theorem interval_is_cleared :
  forall (fuel : nat) (w : World),
    (101 <= fuel)%nat ->
    exists (nodes : list BuildTreeItem) (w' : World) (tr : list Effect),
      getChildren fuel None w = (Resolved nodes, w')
      /\ trace w' = trace w ++ tr
      /\ List.filter is_timer_call tr =
           (if isLoading (this w) then [SetInterval 100; ClearInterval] else []).
Proof.
  intros fuel w Hfuel.
  destruct (getChildren_root_trace fuel w Hfuel) as (w' & n & Hrun & Htrace).
  eexists _, w', _. split; [exact Hrun|]. split; [exact Htrace|].
  rewrite List.filter_app,
    (filter_none is_timer_call (getSchemes_effects _)), app_nil_r
    by apply getSchemes_effects_no_timer.
  destruct (isLoading (this w)); [|reflexivity].
  cbn [List.filter is_timer_call].
  rewrite List.filter_app, filter_replicate_fire by reflexivity. reflexivity.
Qed.

Lemma interval_is_cleared_witness :
  exists (nodes : list BuildTreeItem) (w' : World) (tr : list Effect),
    getChildren 101 None (refreshing_world app_manager [(3000, refreshSchemesCompleted)])
    = (Resolved nodes, w')
    /\ trace w' = [] ++ tr
    /\ List.filter is_timer_call tr = [SetInterval 100; ClearInterval].
Proof.
  exact (interval_is_cleared 101
           (refreshing_world app_manager [(3000, refreshSchemesCompleted)]) (le_n 101)).
Defined.

(** X8. A root request asks the manager nothing, runs no command and logs
    nothing while it waits: its trace is a waiting part without any of
    these, followed by a part that starts with the fetch and has no timer
    call and no change signal of its own. *)
Theorem queries_follow_the_wait :
  forall (fuel : nat) (w : World),
    (101 <= fuel)%nat ->
    exists (nodes : list BuildTreeItem) (w' : World) (waiting fetching : list Effect),
      getChildren fuel None w = (Resolved nodes, w')
      /\ trace w' = trace w ++ waiting ++ fetching
      /\ Forall (fun e => is_manager_call e = false
                          /\ is_command e = false /\ is_log e = false) waiting
      /\ head fetching = Some CallGetSchemes
      /\ Forall (fun e => is_timer_call e = false) fetching
      /\ fired fetching = [].
Proof.
  intros fuel w Hfuel.
  destruct (getChildren_root_trace fuel w Hfuel) as (w' & n & Hrun & Htrace).
  eexists _, w', _, _. split; [exact Hrun|]. split; [exact Htrace|].
  split; [|split; [reflexivity|split; [apply getSchemes_effects_no_timer|]]].
  - destruct (isLoading (this w)); [|constructor].
    constructor; [repeat split|]. apply Forall_app. split.
    + apply Forall_forall. intros e He. apply elem_of_replicate in He as [-> _].
      repeat split.
    + repeat constructor.
  - apply getSchemes_effects_fired.
Qed.

Lemma queries_follow_the_wait_witness :
  exists (nodes : list BuildTreeItem) (w' : World) (waiting fetching : list Effect),
    getChildren 101 None (refreshing_world failing_manager []) = (Resolved nodes, w')
    /\ trace w' = [] ++ waiting ++ fetching
    /\ Forall (fun e => is_manager_call e = false
                        /\ is_command e = false /\ is_log e = false) waiting
    /\ head fetching = Some CallGetSchemes
    /\ Forall (fun e => is_timer_call e = false) fetching
    /\ fired fetching = [].
Proof.
  exact (queries_follow_the_wait 101 (refreshing_world failing_manager []) (le_n 101)).
Defined.

(** With the flag raised and no queued event that clears it, the loop runs
    to the first tick past the deadline. *)
Lemma poll_times_out (n : nat) :
  forall (fuel : nat) (deadline : Z) (w : World),
    isLoading (this w) = true ->
    Forall (fun entry => clears_loading (snd entry) = false) (queue w) ->
    clock w + 100 * Z.of_nat n <= deadline < clock w + 100 * (Z.of_nat n + 1) ->
    (n < fuel)%nat ->
    exists w' : World,
      poll fuel deadline w = (Resolved tt, w')
      /\ clock w' = clock w + 100 * (Z.of_nat n + 1)
      /\ isLoading (this w') = true.
Proof.
  induction n as [|n IH]; intros fuel deadline w Hload Hq Hd Hfuel;
    (destruct fuel as [|fuel]; [lia|]); rewrite poll_step; cbv zeta;
    rewrite deliver_run; cbn [set_clock this clock queue trace isLoading];
    rewrite Hload, flag_stays_raised
      by (apply Forall_map_filter; intros entry Hin _;
          rewrite Forall_forall in Hq; apply Hq, Hin);
    cbn [negb orb].
  - assert ((clock w + 100 >? deadline) = true) as -> by (apply Z.gtb_lt; lia).
    eexists. split; [reflexivity|]. cbn [set_trace clock this isLoading].
    split; [lia | reflexivity].
  - assert ((clock w + 100 >? deadline) = false) as ->
        by (rewrite Z.gtb_ltb; apply Z.ltb_ge; lia).
    destruct (IH fuel deadline
                {| this := {| buildManager := buildManager (this w); isLoading := true |};
                   clock := clock w + 100;
                   queue := List.filter
                              (fun entry => negb (is_due (clock w + 100) entry)) (queue w);
                   trace := trace w
                            ++ replicate
                                 (length (List.filter (is_due (clock w + 100)) (queue w)))
                                 (Fire EvNull) |})
      as (w' & Hrun & Hclock & Hflag); cbn [this clock queue isLoading];
      [reflexivity | | lia | lia |].
    + apply Forall_forall. intros entry Hin.
      apply list_elem_of_In, List.filter_In in Hin as [Hin _].
      rewrite Forall_forall in Hq. apply Hq, list_elem_of_In, Hin.
    + exists w'. split; [exact Hrun|]. cbn [clock] in Hclock. split; [lia | exact Hflag].
Qed.

(** X9. A root request made while the loading flag is raised, with no
    event to come that clears it, gives up waiting exactly 10100 ms after
    it began, whatever other events arrive meanwhile; the flag is still
    raised then, and the request goes on all the same and resolves with the
    nodes of the schemes the manager has. *)
Theorem wait_times_out :
  forall (fuel : nat) (w : World),
    (101 <= fuel)%nat ->
    isLoading (this w) = true ->
    Forall (fun entry => clears_loading (snd entry) = false) (queue w) ->
    exists w' : World,
      getChildren fuel None w =
        (Resolved (map (node_of (buildManager (this w))) (fetched (buildManager (this w)))),
         w')
      /\ clock w' = clock w + 10100
      /\ isLoading (this w') = true.
Proof.
  intros fuel w Hfuel Hload Hq.
  destruct (poll_times_out 100 fuel (clock w + 10 * 1000)
              (set_trace (trace w ++ [SetInterval 100]) w))
    as (w1 & Hrun & Hclock & Hflag); cbn [set_trace this clock queue];
    try assumption; try lia.
  assert (waitWhileLoading fuel w = (Resolved tt, w1)) as Hwait
      by (rewrite waitWhileLoading_run, Hload; exact Hrun).
  pose proof (waitWhileLoading_waited fuel w) as (Hm & _).
  rewrite Hwait in Hm. cbn [snd] in Hm.
  rewrite (getChildren_root _ _ _ Hwait), getSchemes_run, Hm.
  eexists. split; [reflexivity|]. cbn [set_trace clock this] in *.
  split; [lia | exact Hflag].
Qed.

Lemma wait_times_out_witness :
  exists w' : World,
    getChildren 101 None
      (refreshing_world app_manager
         [(500, defaultSchemeForBuildUpdated (Some "App")); (700, refreshSchemesStarted)])
    = (Resolved (map (node_of app_manager) (fetched app_manager)), w')
    /\ clock w' = 0 + 10100
    /\ isLoading (this w') = true.
Proof.
  apply (wait_times_out 101
           (refreshing_world app_manager
              [(500, defaultSchemeForBuildUpdated (Some "App"));
               (700, refreshSchemesStarted)])).
  - apply le_n.
  - reflexivity.
  - apply Forall_cons. split; [reflexivity|].
    apply Forall_cons. split; [reflexivity|]. apply Forall_nil. exact I.
Defined.

(** X10. A root request that found the loading flag raised waits a whole
    number of polling periods: at least one (100 ms, however soon the flag
    is cleared) and at most 101. *)
Theorem wait_is_whole_periods :
  forall (fuel : nat) (w : World),
    (101 <= fuel)%nat ->
    isLoading (this w) = true ->
    exists (w' : World) (k : nat),
      waitWhileLoading fuel w = (Resolved tt, w')
      /\ (1 <= k <= 101)%nat
      /\ clock w' = clock w + 100 * Z.of_nat k.
Proof.
  intros fuel w Hfuel Hload.
  destruct (waitWhileLoading_settles fuel w Hfuel) as (w' & Hwait & Hclock & _).
  exists w'. pose proof Hwait as Hrun.
  rewrite waitWhileLoading_run, Hload in Hrun.
  apply poll_resolved in Hrun as (k & n & Hk & Hk' & _).
  cbn [set_trace clock] in Hk'.
  exists k. split; [exact Hwait|]. split; [lia | exact Hk'].
Qed.

Lemma wait_is_whole_periods_witness :
  exists (w' : World) (k : nat),
    waitWhileLoading 101 (refreshing_world app_manager [(1, refreshSchemesCompleted)])
    = (Resolved tt, w')
    /\ (1 <= k <= 101)%nat
    /\ clock w' = 0 + 100 * Z.of_nat k.
Proof.
  exact (wait_is_whole_periods 101
           (refreshing_world app_manager [(1, refreshSchemesCompleted)])
           (le_n 101) eq_refl).
Defined.

(** X11. A root request never rejects and its nodes do not depend on the
    wait: whatever the loading flag, the clock and the queued events, it
    resolves with the node list [getSchemes] gives for the same manager. *)
Theorem root_request_is_getSchemes :
  forall (fuel : nat) (w : World),
    (101 <= fuel)%nat ->
    exists nodes : list BuildTreeItem,
      fst (getChildren fuel None w) = Resolved nodes
      /\ fst (getSchemes w) = Resolved nodes
      /\ map scheme nodes = map name (fetched (buildManager (this w))).
Proof.
  intros fuel w Hfuel.
  destruct (getChildren_root_run fuel w Hfuel) as (w1 & _ & _ & Hrun).
  rewrite Hrun, getSchemes_run. eexists. split; [reflexivity|].
  split; [reflexivity|]. rewrite map_map. reflexivity.
Qed.

Lemma root_request_is_getSchemes_witness :
  exists nodes : list BuildTreeItem,
    fst (getChildren 101 None (refreshing_world failing_manager [])) = Resolved nodes
    /\ fst (getSchemes (refreshing_world failing_manager [])) = Resolved nodes
    /\ map scheme nodes = [].
Proof.
  exact (root_request_is_getSchemes 101 (refreshing_world failing_manager []) (le_n 101)).
Defined.

(** X13. Within one call of [getSchemes] a node is determined by its
    label: schemes of the same name, wherever they stand in the list, get
    nodes that agree on every field. *)
Theorem label_determines_node :
  forall w : World,
    exists (nodes : list BuildTreeItem) (w' : World),
      getSchemes w = (Resolved nodes, w')
      /\ forall node node' : BuildTreeItem,
           node ∈ nodes -> node' ∈ nodes -> label node = label node' -> node = node'.
Proof.
  intros w. rewrite getSchemes_run. eexists _, _. split; [reflexivity|].
  intros node node' Hin Hin' Hlabel.
  apply list_elem_of_fmap in Hin as (s & -> & _).
  apply list_elem_of_fmap in Hin' as (s' & -> & _).
  unfold node_of in *. cbn [label new_BuildTreeItem] in Hlabel.
  cbn [opt_scheme] in Hlabel. rewrite Hlabel. reflexivity.
Qed.
